(** * Verification of [generate_org_chart.py]

    A shallow embedding of the Red Cross org chart generator: the roster
    loader, the chart renderer and the interactive wrapper emitter, followed
    by the properties of the specification settled against them.

    Modelling choices.
    - A roster record is a Python [dict]; following the data model every
      field that is present holds a string, so a record is a finite map from
      field names to strings.  A field may be absent, which is what the
      presence checks ([person.get]) and the subscripts ([person['id']])
      of the program distinguish.  Values of a roster file that are not
      strings (numbers, [null], nested values) are outside the model.
    - Python strings are byte strings in UTF-8 here; the only pattern ever
      searched for or replaced is ASCII or a whole code point, so matching on
      bytes and on code points agree.
    - An exception is a value of [exn]; code that can raise returns a
      [result].  Code that touches files or the terminal is a function of
      the [World], which it returns updated together with its outcome.
    - The [graphviz] package and [json] are not part of the program: a
      [Digraph] is its ordered list of statements, the layout engine and the
      JSON reader are section variables. *)

From stdpp Require Import base option strings pretty list gmap.

Local Open Scope string_scope.
Local Open Scope list_scope.

(** ** Exceptions and results *)

Inductive exn : Type :=
| KeyError (key : string)
| FileNotFoundError (path : string)
| JSONDecodeError
| RenderEngineError.

Inductive result (A : Type) : Type :=
| Ok (a : A)
| Raise (e : exn).
Arguments Ok {A} a.
Arguments Raise {A} e.

#[global] Instance result_ret : MRet result := fun A a => Ok a.
#[global] Instance result_bind : MBind result := fun A B f r =>
  match r with
  | Ok a => f a
  | Raise e => Raise e
  end.
#[global] Instance result_fmap : FMap result := fun A B f r =>
  match r with
  | Ok a => Ok (f a)
  | Raise e => Raise e
  end.

(** ** Python strings *)

Module PyStr.

(** The double quote character, which a string literal cannot hold. *)
Definition dq : string := String (Ascii.ascii_of_nat 34) EmptyString.

(** [q s] is [s] between double quotes. *)
Definition q (s : string) : string := dq +:+ s +:+ dq.

(** The line feed. *)
Definition nl : string := String (Ascii.ascii_of_nat 10) EmptyString.

(** [sub in s] of Python, [s.includes(sub)] of JavaScript. *)
Fixpoint includes (sub s : string) : bool :=
  String.prefix sub s ||
  match s with
  | EmptyString => false
  | String _ rest => includes sub rest
  end.

(** [s.replace(old, new)] when [old] is empty: [new] goes before every
    character and after the last one. *)
Fixpoint interleave (new s : string) : string :=
  match s with
  | EmptyString => new
  | String c rest => new +:+ String c (interleave new rest)
  end.

(** The scan of [s.replace(old, new)] for a non-empty [old], from left to
    right over non-overlapping occurrences; [skip] counts the characters
    of an occurrence already replaced that are still to be passed over. *)
Fixpoint replace_scan (old new s : string) (skip : nat) : string :=
  match s with
  | EmptyString => EmptyString
  | String c rest =>
      match skip with
      | S k => replace_scan old new rest k
      | O =>
          if String.prefix old s
          then new +:+ replace_scan old new rest (String.length old - 1)
          else String c (replace_scan old new rest 0)
      end
  end.

(** [s.replace(old, new)]. *)
Definition replace (old new s : string) : string :=
  match old with
  | EmptyString => interleave new s
  | String _ _ => replace_scan old new s 0
  end.

(** Truth value of a string: only the empty string is false. *)
Definition truthy (s : string) : bool :=
  match s with
  | EmptyString => false
  | String _ _ => true
  end.

End PyStr.

(** ** Dictionaries *)

(** A roster record: the fields present and their values. *)
Abbreviation person := (gmap string string).

(** [d[key]]: raises [KeyError] when the key is absent. *)
Definition getitem (d : gmap string string) (key : string) : result string :=
  match d !! key with
  | Some v => Ok v
  | None => Raise (KeyError key)
  end.

(** [d.get(key, default)]. *)
Definition get_default (d : gmap string string) (key default : string) : string :=
  match d !! key with
  | Some v => v
  | None => default
  end.

(** Truth value of [d.get(key)]: the key is present and its value is not
    the empty string ([None] is false). *)
Definition get_truthy (d : gmap string string) (key : string) : bool :=
  match d !! key with
  | Some v => PyStr.truthy v
  | None => false
  end.

(** Truth value of a dictionary: only the empty one is false. *)
Definition dict_truthy (d : gmap string string) : bool :=
  negb (bool_decide (d = ∅)).

(** ** The world: files and the terminal *)

Record World : Type := mkWorld {
  files : gmap string string;   (* path -> content *)
  stdout : list string          (* lines printed so far *)
}.

(** A computation with effects: its outcome and the world it leaves, also
    when it raises (nothing written before an exception is undone). *)
Definition io (A : Type) : Type := World -> result A * World.

#[global] Instance io_ret : MRet io := fun A a w => (Ok a, w).
#[global] Instance io_bind : MBind io := fun A B f m w =>
  match m w with
  | (Ok a, w') => f a w'
  | (Raise e, w') => (Raise e, w')
  end.

(** A computation without effects, run in the world. *)
Definition lift {A : Type} (r : result A) : io A := fun w => (r, w).

(** [print(line)]. *)
Definition print (line : string) : io unit :=
  fun w => (Ok tt, mkWorld (files w) (stdout w ++ [line])).

(** [os.path.exists(path)]. *)
Definition path_exists (path : string) : io bool :=
  fun w => (Ok (bool_decide (is_Some (files w !! path))), w).

(** Writing [content] to [path], which is created or truncated. *)
Definition write_file (path content : string) : io unit :=
  fun w => (Ok tt, mkWorld (<[path := content]> (files w)) (stdout w)).

(** ** The roster loader *)

Definition sample_roster : list person :=
  [ {[ "id" := "cmd-dro"; "title" := "DRO Director"; "name" := "Virginia Mewborn";
       "phone" := "917-670-8334"; "email" := "Virginia.Mewborn@redcross.org";
       "category" := "Command" ]};
    {[ "id" := "cmd-rcco"; "title" := "RCCO"; "name" := "Ryan Lock";
       "phone" := "850-354-2342"; "email" := "Ryan.Lock3@redcross.org";
       "category" := "Command"; "reportsTo" := "cmd-dro" ]};
    {[ "id" := "cmd-cos"; "title" := "Chief of Staff"; "name" := "Janice Vannatta";
       "phone" := "601-325-3656"; "email" := "Janice.Vannatta4@redcross.org";
       "category" := "Command"; "reportsTo" := "cmd-dro" ]};
    {[ "id" := "ops-ad"; "title" := "AD Operations"; "name" := "Patricia DAlessandro";
       "phone" := "319-404-2096"; "email" := "Patricia.DAlessandro2@redcross.org";
       "category" := "Operations"; "reportsTo" := "cmd-dro" ]};
    {[ "id" := "ops-zone1"; "title" := "Zone Coordinator-Zone 1"; "name" := "Rick Schou";
       "phone" := "980-721-8710"; "email" := "Rick.Schou@redcross.org";
       "category" := "Operations"; "reportsTo" := "ops-ad" ]};
    {[ "id" := "ops-zone2"; "title" := "Zone Coordinator-Zone 2"; "name" := "Bene Hunter";
       "phone" := "941-224-3350"; "email" := "Bene.Hunter2@redcross.org";
       "category" := "Operations"; "reportsTo" := "ops-ad" ]};
    {[ "id" := "ops-mass"; "title" := "HQ Mass Care Chief"; "name" := "Brenda Bridges";
       "phone" := "760-987-5452"; "email" := "brenda.bridges2@redcross.org";
       "category" := "Operations"; "reportsTo" := "ops-ad" ]};
    {[ "id" := "log-ad"; "title" := "AD Logistics"; "name" := "Marvin Williams";
       "phone" := "931-237-3823"; "email" := "Marvin.Williams2@redcross.org";
       "category" := "Logistics Section"; "reportsTo" := "cmd-dro" ]};
    {[ "id" := "log-chief"; "title" := "HQ Logistics Chief"; "name" := "Margenia Hatfield";
       "phone" := "765-602-9133"; "email" := "Margenia.Hatfield@redcross.org";
       "category" := "Logistics Section"; "reportsTo" := "log-ad" ]};
    {[ "id" := "log-transport"; "title" := "HQ Transportation Manager"; "name" := "Lee Meyer";
       "phone" := "719-749-5672"; "email" := "Lee.Meyer@redcross.org";
       "category" := "Logistics Section"; "reportsTo" := "log-chief" ]} ].

Section Loader.

(** [json.loads] on the content of the roster file: the list of records it
    holds, or [JSONDecodeError]. *)
Variable json_loads : string -> result (list person).

(** [with open(path, 'r') as f: return json.load(f)]. *)
Definition json_load_file (path : string) : io (list person) :=
  fun w =>
    match files w !! path with
    | Some content => (json_loads content, w)
    | None => (Raise (FileNotFoundError path), w)
    end.

Definition load_roster_from_localstorage : io (list person) :=
  present ← path_exists "roster.json";
  if (present : bool) then json_load_file "roster.json"
  else mret sample_roster.

End Loader.

(** ** The graph description *)

(** One statement of a [Digraph]'s body, in the order the calls add them. *)
Inductive stmt : Type :=
| attr_stmt (kw : option string) (attrs : list (string * string))
| node_stmt (name label : string) (attrs : list (string * string))
| edge_stmt (tail head : string).

#[global] Instance stmt_eq_dec : EqDecision stmt.
Proof. solve_decision. Defined.

Record Digraph : Type := mkDigraph {
  comment : string;
  format : string;
  body : list stmt
}.

(** [Digraph(comment=...)]; the format of a new graph is ['pdf']. *)
Definition Digraph_new (c : string) : Digraph := mkDigraph c "pdf" [].

Definition add_stmt (dot : Digraph) (s : stmt) : Digraph :=
  mkDigraph (comment dot) (format dot) (body dot ++ [s]).

(** [dot.attr(kw, **attrs)], [dot.node(name, label=..., **attrs)] and
    [dot.edge(tail, head)]. *)
Definition attr (dot : Digraph) (kw : option string) (attrs : list (string * string)) : Digraph :=
  add_stmt dot (attr_stmt kw attrs).
Definition node (dot : Digraph) (name label : string) (attrs : list (string * string)) : Digraph :=
  add_stmt dot (node_stmt name label attrs).
Definition edge (dot : Digraph) (tail head : string) : Digraph :=
  add_stmt dot (edge_stmt tail head).

(** [dot.format = fmt]. *)
Definition set_format (dot : Digraph) (fmt : string) : Digraph :=
  mkDigraph (comment dot) fmt (body dot).

(** ** The chart renderer *)

(** Colors for categories. *)
Definition colors : gmap string string :=
  {[ "Command" := "#ffcccc";
     "Operations" := "#ccddff";
     "Logistics Section" := "#ccffcc";
     "24 Hour Lines" := "#ffccff";
     "default" := "#f0f0f0" ]}.

(** The label of a position, with HTML-like formatting. *)
Definition make_label (person : person) : result string :=
  title ← getitem person "title";
  let label := "<<B>" +:+ title +:+ "</B><BR/>" in
  name ← getitem person "name";
  let label := label +:+ "<B>" +:+ name +:+ "</B><BR/>" in
  label ←
    (if get_truthy person "phone" then
       phone ← getitem person "phone";
       mret (label +:+ "<FONT POINT-SIZE='9'>Phone: " +:+ phone +:+ "</FONT><BR/>")
     else mret label);
  label ←
    (if get_truthy person "email" then
       email ← getitem person "email";
       let email_display := PyStr.replace "@redcross.org" "" email in
       mret (label +:+ "<FONT POINT-SIZE='9'>Email: " +:+ email_display +:+ "</FONT>")
     else mret label);
  mret (label +:+ ">").

(** The color of a position, from its category. *)
Definition pick_color (person : person) : result string :=
  default_color ← getitem colors "default";
  mret (get_default colors (get_default person "category" "") default_color).

(** One turn of the loop that adds the nodes. *)
Definition add_node (person : person) (dot : Digraph) : result Digraph :=
  if get_truthy person "name" then
    label ← make_label person;
    fill_color ← pick_color person;
    name ← getitem person "id";
    mret (node dot name label [("fillcolor", fill_color)])
  else mret dot.

Fixpoint add_nodes (roster_data : list person) (dot : Digraph) : result Digraph :=
  match roster_data with
  | [] => mret dot
  | person :: rest => dot ← add_node person dot; add_nodes rest dot
  end.

(** [next((p for p in roster_data if p['id'] == person['reportsTo']), None)]:
    the first record whose id is the one reported to. *)
Fixpoint find_supervisor (roster_data : list person) (person : person)
  : result (option (gmap string string)) :=
  match roster_data with
  | [] => mret None
  | p :: rest =>
      pid ← getitem p "id";
      target ← getitem person "reportsTo";
      if String.eqb pid target then mret (Some p)
      else find_supervisor rest person
  end.

(** One turn of the loop that adds the edges. *)
Definition add_edge (roster_data : list person) (person : person) (dot : Digraph)
  : result Digraph :=
  if get_truthy person "name" && get_truthy person "reportsTo" then
    supervisor ← find_supervisor roster_data person;
    match supervisor with
    | Some sup =>
        if dict_truthy sup && get_truthy sup "name" then
          tail ← getitem person "reportsTo";
          head ← getitem person "id";
          mret (edge dot tail head)
        else mret dot
    | None => mret dot
    end
  else mret dot.

Fixpoint add_edges (roster_data people : list person) (dot : Digraph) : result Digraph :=
  match people with
  | [] => mret dot
  | person :: rest => dot ← add_edge roster_data person dot; add_edges roster_data rest dot
  end.

(** The graph as it stands when the chart is handed to the layout engine. *)
Definition build_graph (roster_data : list person) : result Digraph :=
  let dot := Digraph_new "Red Cross Incident Organization Chart" in
  let dot := attr dot None [("rankdir", "TB")] in
  let dot := attr dot (Some "node")
    [("shape", "box"); ("style", "rounded,filled"); ("fontname", "Arial"); ("fontsize", "10")] in
  let dot := attr dot (Some "edge") [("color", "gray"); ("arrowsize", "0.8")] in
  dot ← add_nodes roster_data dot;
  dot ← add_edges roster_data roster_data dot;
  let dot := attr dot None
    [("label", "\n\nIncident Organization Chart\nFLOCOM - DR 220-25\nOperational Period: 18:00 20/10/2024 to 17:59 21/10/2024\n\n")] in
  let dot := attr dot None [("fontsize", "12"); ("labelloc", "t")] in
  mret dot.

Section Renderer.

(** The layout engine: the artifact it makes of a graph in a format, or
    nothing when it fails. *)
Variable engine : Digraph -> string -> option string.

(** [dot.render(filename, format=fmt, cleanup=True, view=False)]: the
    source is saved under [filename], laid out into [filename.fmt], and
    the saved source is removed. *)
Definition render (dot : Digraph) (filename : string) (fmt : option string) : io string :=
  fun w =>
    let fmt := default (format dot) fmt in
    match engine dot fmt with
    | Some artifact =>
        let out := filename +:+ "." +:+ fmt in
        (Ok out, mkWorld (delete filename (<[out := artifact]> (files w))) (stdout w))
    | None => (Raise RenderEngineError, w)
    end.

Definition create_org_chart (roster_data : list person) (output_format : string) : io Digraph :=
  dot ← lift (build_graph roster_data);
  let output_filename := "org_chart" in
  _ ← render dot output_filename (Some output_format);
  let dot := set_format dot "svg" in
  _ ← render dot output_filename None;
  _ ← print ("✅ Org chart generated: " +:+ output_filename +:+ "." +:+ output_format);
  _ ← print ("✅ Web version generated: " +:+ output_filename +:+ ".svg");
  mret dot.

End Renderer.

(** ** The interactive wrapper emitter *)

Module Wrapper.
Import PyStr.

(** The lines of the document, a literal of the program. *)
Definition html_lines : list string :=
  [ "<!DOCTYPE html>";
    "<html lang=" +:+ q "en" +:+ ">";
    "<head>";
    "    <meta charset=" +:+ q "UTF-8" +:+ ">";
    "    <meta name=" +:+ q "viewport" +:+ " content=" +:+ q "width=device-width, initial-scale=1.0" +:+ ">";
    "    <title>Red Cross Organization Chart</title>";
    "    <style>";
    "        body {";
    "            font-family: Arial, sans-serif;";
    "            margin: 0;";
    "            padding: 20px;";
    "            background-color: #f5f5f5;";
    "        }";
    "        .header {";
    "            background: white;";
    "            padding: 20px;";
    "            border-bottom: 3px solid #dc2626;";
    "            margin-bottom: 20px;";
    "        }";
    "        .chart-container {";
    "            background: white;";
    "            padding: 20px;";
    "            border-radius: 8px;";
    "            box-shadow: 0 2px 4px rgba(0,0,0,0.1);";
    "            overflow-x: auto;";
    "        }";
    "        svg {";
    "            max-width: 100%;";
    "            height: auto;";
    "        }";
    "        .footer {";
    "            margin-top: 20px;";
    "            padding: 20px;";
    "            background: white;";
    "            border-top: 2px solid #333;";
    "        }";
    "    </style>";
    "    <script>";
    "        // Make phone numbers and emails clickable";
    "        window.onload = function() {";
    "            const svg = document.querySelector('svg');";
    "            if (svg) {";
    "                // Find all text elements with phone numbers";
    "                const texts = svg.querySelectorAll('text');";
    "                texts.forEach(text => {";
    "                    const content = text.textContent;";
    "                    // Phone number pattern";
    "                    if (content && content.includes('📞')) {";
    "                        const phone = content.match(/[0-9-]+/);";
    "                        if (phone) {";
    "                            text.style.cursor = 'pointer';";
    "                            text.style.fill = '#2563eb';";
    "                            text.onclick = () => window.location.href = 'tel:' + phone[0].replace(/-/g, '');";
    "                        }";
    "                    }";
    "                    // Email pattern";
    "                    if (content && content.includes('✉️')) {";
    "                        text.style.cursor = 'pointer';";
    "                        text.style.fill = '#2563eb';";
    "                        text.onclick = () => {";
    "                            const email = content.replace('✉️', '').trim() + '@redcross.org';";
    "                            window.location.href = 'mailto:' + email;";
    "                        };";
    "                    }";
    "                });";
    "            }";
    "        };";
    "    </script>";
    "</head>";
    "<body>";
    "    <div class=" +:+ q "header" +:+ ">";
    "        <h1>Incident Organization Chart</h1>";
    "        <p><strong>Incident Name:</strong> FLOCOM | <strong>DR Number:</strong> 220-25</p>";
    "        <p><strong>Operational Period:</strong> 18:00 20/10/2024 to 17:59 21/10/2024</p>";
    "    </div>";
    "    ";
    "    <div class=" +:+ q "chart-container" +:+ ">";
    "        <object data=" +:+ q "org_chart.svg" +:+ " type=" +:+ q "image/svg+xml" +:+ " width=" +:+ q "100%" +:+ ">";
    "            <img src=" +:+ q "org_chart.svg" +:+ " alt=" +:+ q "Organization Chart" +:+ " />";
    "        </object>";
    "    </div>";
    "    ";
    "    <div class=" +:+ q "footer" +:+ ">";
    "        <p><strong>Prepared By:</strong> Gary Pelletier<br/>Information & Planning</p>";
    "        <p>Page 8 of 53</p>";
    "    </div>";
    "</body>";
    "</html>" ].

Definition html_content : string := String.concat nl html_lines.

(** The reference to the vector artifact inside the document. *)
Definition object_reference : string := "<object data=" +:+ q "org_chart.svg".
Definition image_reference : string := "<img src=" +:+ q "org_chart.svg".

Definition create_html_wrapper (svg_file : string) : io unit :=
  _ ← write_file "org_chart.html" html_content;
  _ ← print "✅ Interactive HTML version generated: org_chart.html";
  print "📱 Phone numbers and emails are clickable!".

(** Called without an argument, [svg_file] is ['org_chart.svg']. *)
Definition create_html_wrapper_default : io unit :=
  create_html_wrapper "org_chart.svg".

End Wrapper.

(** ** The script of the wrapper

    The document carries a script, run by the browser when the page has
    loaded.  For every text element it reads [content = text.textContent]
    and decides by the tests below whether the element gets a click handler.
    The tests are those of the script; the markers are the ones its
    [content.includes(...)] calls look for. *)

Module Script.
Import PyStr.

Definition phone_marker : string := "📞".
Definition email_marker : string := "✉️".

Definition is_phone_char (c : Ascii.ascii) : bool :=
  let n := Ascii.nat_of_ascii c in
  (Nat.leb 48 n && Nat.leb n 57) || Nat.eqb n 45.

(** [content.match(/[0-9-]+/)] finds something: some character is a digit
    or a dash. *)
Fixpoint matches_phone_pattern (content : string) : bool :=
  match content with
  | EmptyString => false
  | String c rest => is_phone_char c || matches_phone_pattern rest
  end.

(** The element gets the handler that opens [tel:]. *)
Definition phone_clickable (content : string) : bool :=
  truthy content && includes phone_marker content && matches_phone_pattern content.

(** The element gets the handler that opens [mailto:]. *)
Definition email_clickable (content : string) : bool :=
  truthy content && includes email_marker content.

(** The tests as the document writes them. *)
Definition phone_test_source : string := "if (content && content.includes('📞')) {".
Definition email_test_source : string := "if (content && content.includes('✉️')) {".

End Script.

(** ** The program *)

Section Main.

Variable json_loads : string -> result (list person).
Variable engine : Digraph -> string -> option string.

Definition main : io unit :=
  _ ← print "🚀 Red Cross Org Chart Generator";
  _ ← print (String.concat "" (replicate 40 "-"));
  roster ← load_roster_from_localstorage json_loads;
  _ ← print ("📊 Loaded " +:+ pretty (length roster) +:+ " positions");
  _ ← print ("👥 " +:+ pretty (length (filter (fun p => get_truthy p "name" = true) roster))
             +:+ " positions filled");
  _ ← print (PyStr.nl +:+ "📈 Generating org chart...");
  _ ← create_org_chart engine roster "pdf";
  _ ← print (PyStr.nl +:+ "🌐 Creating interactive web version...");
  _ ← Wrapper.create_html_wrapper_default;
  _ ← print (PyStr.nl +:+ "✨ Done! Your org charts are ready:");
  _ ← print "  - org_chart.pdf (for printing)";
  _ ← print "  - org_chart.svg (for web)";
  print "  - org_chart.html (interactive with clickable contacts)".

End Main.

(** * Vocabulary of the properties *)

(** ** Records as the data model has them *)

(** A position that is filled: [person.get('name')] is true. *)
Definition named (p : person) : Prop := get_truthy p "name" = true.

(** A record the renderer can read: it carries an [id], and a [title] when
    the position is filled (the data model has both in every record). *)
Definition complete (p : person) : Prop :=
  is_Some (p !! "id") ∧ (named p → is_Some (p !! "title")).

(** A record whose node can be made: when the position is filled, the
    record carries a [title] and an [id]. *)
Definition renderable (p : person) : Prop :=
  named p → is_Some (p !! "title") ∧ is_Some (p !! "id").

#[global] Instance named_dec p : Decision (named p).
Proof. unfold named. apply _. Defined.

#[global] Instance complete_dec p : Decision (complete p).
Proof. unfold complete. apply _. Defined.

(** The ids of the records, in roster order. *)
Definition roster_ids (roster : list person) : list (option string) :=
  (λ p : person, p !! "id") <$> roster.

(** ** Reading a graph description *)

(** The names of the nodes, the edges and the labels of the nodes, in the
    order of the statements. *)
Definition node_names (b : list stmt) : list string :=
  flat_map (λ s, match s with node_stmt n _ _ => [n] | _ => [] end) b.

Definition edges_of (b : list stmt) : list (string * string) :=
  flat_map (λ s, match s with edge_stmt t h => [(t, h)] | _ => [] end) b.

Definition labels_of (b : list stmt) : list string :=
  flat_map (λ s, match s with node_stmt _ l _ => [l] | _ => [] end) b.

(** [dot] with more statements at its end. *)
Definition extend (dot : Digraph) (l : list stmt) : Digraph :=
  mkDigraph (comment dot) (format dot) (body dot ++ l).

(** ** What one turn of each loop adds *)

(** The node of a record: none for a vacant position. *)
Definition the_node (p : person) : list stmt :=
  if get_truthy p "name" then
    match make_label p, pick_color p, getitem p "id" with
    | Ok label, Ok color, Ok name => [node_stmt name label [("fillcolor", color)]]
    | _, _, _ => []
    end
  else [].

(** The first record of the roster with a given id. *)
Fixpoint first_with_id (roster : list person) (target : string) : option person :=
  match roster with
  | [] => None
  | p :: rest =>
      if bool_decide (p !! "id" = Some target) then Some p
      else first_with_id rest target
  end.

(** The supervisor a record names is in the roster and the position is
    filled. *)
Definition supervised (roster : list person) (p : person) : bool :=
  get_truthy p "reportsTo" &&
  match first_with_id roster (get_default p "reportsTo" "") with
  | Some sup => get_truthy sup "name"
  | None => false
  end.

(** The edge of a record. *)
Definition the_edge (roster : list person) (p : person) : list stmt :=
  if get_truthy p "name" && supervised roster p then
    [edge_stmt (get_default p "reportsTo" "") (get_default p "id" "")]
  else [].

(** The statements before the nodes. *)
Definition preamble : list stmt :=
  [ attr_stmt None [("rankdir", "TB")];
    attr_stmt (Some "node")
      [("shape", "box"); ("style", "rounded,filled"); ("fontname", "Arial"); ("fontsize", "10")];
    attr_stmt (Some "edge") [("color", "gray"); ("arrowsize", "0.8")] ].

(** The caption, after the edges. *)
Definition caption : list stmt :=
  [ attr_stmt None
      [("label", "\n\nIncident Organization Chart\nFLOCOM - DR 220-25\nOperational Period: 18:00 20/10/2024 to 17:59 21/10/2024\n\n")];
    attr_stmt None [("fontsize", "12"); ("labelloc", "t")] ].

(** The statements of the graph built from a roster: the nodes in roster
    order, then the edges in roster order, between preamble and caption. *)
Definition graph_body (roster : list person) : list stmt :=
  preamble ++ flat_map the_node roster
           ++ flat_map (the_edge roster) roster ++ caption.

(** ** Inputs to run the program on *)

(** The layout engine does not fail. *)
Definition lays_out (engine : Digraph -> string -> option string) : Prop :=
  ∀ dot fmt, is_Some (engine dot fmt).

(** An engine that lays every graph out, into an empty artifact. *)
Definition blank_engine : Digraph -> string -> option string := λ _ _, Some "".

(** A reader that finds the same two records in every file: the second has
    a name and neither title nor id. *)
Definition fixed_reader : string -> result (list person) :=
  λ _, Ok [ {[ "id" := "a"; "title" := "Lead"; "name" := "Ann" ]};
            {[ "name" := "Bob" ]} ].

(** No file, nothing printed. *)
Definition empty_world : World := mkWorld ∅ [].

(** A world whose roster file is there. *)
Definition roster_world : World := mkWorld {[ "roster.json" := "[...]" ]} [].

(** A roster whose director has the empty string as id, and an aide whose
    [reportsTo] is the empty string. *)
Definition blank_id_roster : list person :=
  [ {[ "id" := ""; "title" := "Director"; "name" := "Ann" ]};
    {[ "id" := "aide"; "title" := "Aide"; "name" := "Bob"; "reportsTo" := "" ]} ].

(** A roster with a reference to an id that no record has. *)
Definition dangling_roster : list person :=
  [ {[ "id" := "a"; "title" := "Lead"; "name" := "Ann" ]};
    {[ "id" := "b"; "title" := "Aide"; "name" := "Bob"; "reportsTo" := "ghost" ]} ].

(** A reader that rejects every file. *)
Definition failing_reader : string -> result (list person) :=
  λ _, Raise JSONDecodeError.


(** A roster with a vacant record without id, and a reference to an id that
    no record has. *)
Definition idless_roster : list person :=
  [ {[ "title" := "Open desk" ]};
    {[ "id" := "b"; "title" := "Aide"; "name" := "Bob"; "reportsTo" := "ghost" ]} ].

(** A roster with an address of another domain. *)
Definition guest_roster : list person :=
  [ {[ "id" := "v"; "title" := "Volunteer"; "name" := "Cy"; "email" := "cy@example.org" ]} ].

(** A roster of vacant positions, with fields missing. *)
Definition vacant_roster : list person :=
  [ {[ "title" := "Open post" ]};
    {[ "id" := "x"; "name" := ""; "reportsTo" := "nobody" ]};
    ∅ ].

(** A record that has an id, and another one than [target]. *)
Definition other_id (target : string) (q : person) : Prop :=
  ∃ i, q !! "id" = Some i ∧ i ≠ target.

(** ** Strings and labels *)

(** [t] occurs in [s]. *)
Definition occurs_in (t s : string) : Prop := ∃ pre post, s = pre +:+ t +:+ post.

(** The label of a record up to its email line: title, name and, when
    there is one, the phone line. *)
Definition label_lead (p : person) : string :=
  let label := "<<B>" +:+ get_default p "title" "" +:+ "</B><BR/>" in
  let label := label +:+ "<B>" +:+ get_default p "name" "" +:+ "</B><BR/>" in
  if get_truthy p "phone"
  then label +:+ "<FONT POINT-SIZE='9'>Phone: " +:+ get_default p "phone" "" +:+ "</FONT><BR/>"
  else label.

(** * Properties *)


(** ** Extending a graph *)

Lemma extend_nil dot : extend dot [] = dot.
Proof. destruct dot; unfold extend; simpl. by rewrite app_nil_r. Qed.

Lemma extend_extend dot l k : extend (extend dot l) k = extend dot (l ++ k).
Proof. unfold extend; simpl. by rewrite app_assoc. Qed.

(** ** Reading a record *)

Lemma get_truthy_Some (p : person) k :
  get_truthy p k = true → ∃ v, p !! k = Some v ∧ v ≠ "".
Proof.
  unfold get_truthy. destruct (p !! k) as [v|]; [|done].
  destruct v; [done|]. intros _. eexists; split; [done|done].
Qed.

Lemma get_truthy_true (p : person) k v :
  p !! k = Some v → v ≠ "" → get_truthy p k = true.
Proof. unfold get_truthy. intros ->. by destruct v. Qed.

Lemma getitem_Some (p : person) k v : p !! k = Some v → getitem p k = Ok v.
Proof. unfold getitem. by intros ->. Qed.

Lemma getitem_None (p : person) k : p !! k = None → getitem p k = Raise (KeyError k).
Proof. unfold getitem. by intros ->. Qed.

Lemma getitem_Ok (p : person) k v : getitem p k = Ok v → p !! k = Some v.
Proof. unfold getitem. destruct (p !! k); [by intros [= ->]|done]. Qed.

Lemma dict_truthy_lookup (d : gmap string string) k v :
  d !! k = Some v → dict_truthy d = true.
Proof.
  intros H. unfold dict_truthy. rewrite bool_decide_eq_false_2; [done|].
  intros ->. by rewrite lookup_empty in H.
Qed.

Lemma complete_renderable (p : person) : complete p → renderable p.
Proof. intros [Hid Ht] Hn. split; [by apply Ht|done]. Qed.

Lemma complete_has_id (roster : list person) :
  Forall complete roster →
  Forall (λ p : gmap string string, is_Some (p !! "id")) roster.
Proof. intros H. eapply Forall_impl; [exact H|]. by intros p [Hp _]. Qed.

(** ** The loop that adds the nodes *)

Lemma make_label_titled (p : person) :
  named p → is_Some (p !! "title") → ∃ label, make_label p = Ok label.
Proof.
  intros Hn [t Htitle].
  destruct (get_truthy_Some _ _ Hn) as (n & Hname & _).
  unfold make_label. rewrite (getitem_Some _ _ _ Htitle), (getitem_Some _ _ _ Hname).
  cbn [mbind result_bind].
  destruct (get_truthy p "phone") eqn:Hp.
  - destruct (get_truthy_Some _ _ Hp) as (ph & Hph & _).
    rewrite (getitem_Some _ _ _ Hph). cbn [mbind result_bind mret result_ret].
    destruct (get_truthy p "email") eqn:He.
    + destruct (get_truthy_Some _ _ He) as (em & Hem & _).
      rewrite (getitem_Some _ _ _ Hem). by eexists.
    + by eexists.
  - cbn [mbind result_bind mret result_ret].
    destruct (get_truthy p "email") eqn:He.
    + destruct (get_truthy_Some _ _ He) as (em & Hem & _).
      rewrite (getitem_Some _ _ _ Hem). by eexists.
    + by eexists.
Qed.

Lemma make_label_Ok (p : person) label :
  make_label p = Ok label → is_Some (p !! "title").
Proof.
  unfold make_label. destruct (p !! "title") as [t|] eqn:Ht; [by eexists|].
  by rewrite (getitem_None _ _ Ht).
Qed.

Lemma pick_color_total (p : person) :
  pick_color p = Ok (get_default colors (get_default p "category" "") "#f0f0f0").
Proof. reflexivity. Qed.

Lemma the_node_named (p : person) :
  named p → renderable p →
  ∃ rid label, p !! "id" = Some rid ∧ make_label p = Ok label ∧
    the_node p =
      [node_stmt rid label
         [("fillcolor", get_default colors (get_default p "category" "") "#f0f0f0")]].
Proof.
  intros Hn Hr. destruct (Hr Hn) as [Ht [rid Hid]].
  destruct (make_label_titled p Hn Ht) as [label Hl].
  exists rid, label. repeat split; [done..|].
  unfold the_node. rewrite Hn, Hl, pick_color_total, (getitem_Some _ _ _ Hid). done.
Qed.

Lemma the_node_vacant (p : person) : ¬ named p → the_node p = [].
Proof.
  unfold named, the_node. by destruct (get_truthy p "name").
Qed.

(** The turn of a record succeeds exactly when its node can be made, and
    then it adds that node. *)
Lemma add_node_renderable (p : person) dot :
  renderable p → add_node p dot = Ok (extend dot (the_node p)).
Proof.
  intros Hr. unfold add_node.
  destruct (get_truthy p "name") eqn:Hn.
  - destruct (the_node_named p Hn Hr) as (rid & label & Hid & Hl & ->).
    by rewrite Hl, pick_color_total, (getitem_Some _ _ _ Hid).
  - rewrite the_node_vacant; [by rewrite extend_nil|]. unfold named. by rewrite Hn.
Qed.

Lemma add_node_Ok (p : person) dot dot' :
  add_node p dot = Ok dot' → renderable p.
Proof.
  unfold add_node. intros H Hn. rewrite Hn in H.
  destruct (make_label p) as [label|e] eqn:Hl; [|done].
  split; [by apply (make_label_Ok p label)|].
  rewrite pick_color_total in H. cbn [mbind result_bind] in H.
  destruct (p !! "id") as [rid|] eqn:Hid; [by eexists|].
  by rewrite (getitem_None _ _ Hid) in H.
Qed.

Lemma add_nodes_renderable (roster : list person) dot :
  Forall renderable roster →
  add_nodes roster dot = Ok (extend dot (flat_map the_node roster)).
Proof.
  intros H. revert dot. induction H as [|p rest Hp _ IH]; intros dot; simpl.
  - by rewrite extend_nil.
  - rewrite (add_node_renderable _ _ Hp). cbn [mbind result_bind].
    by rewrite IH, extend_extend.
Qed.

Lemma add_nodes_Ok (roster : list person) dot dot' :
  add_nodes roster dot = Ok dot' → Forall renderable roster.
Proof.
  revert dot. induction roster as [|p rest IH]; intros dot; [by constructor|].
  cbn [add_nodes]. destruct (add_node p dot) as [d|e] eqn:Hp; [|done].
  cbn [mbind result_bind]. intros H. constructor.
  - by apply (add_node_Ok p dot d).
  - by apply (IH d).
Qed.

(** ** The loop that adds the edges *)

Lemma first_with_id_Some (roster : list person) target sup :
  first_with_id roster target = Some sup →
  sup ∈ roster ∧ sup !! "id" = Some target.
Proof.
  induction roster as [|p rest IH]; simpl; [done|].
  case_bool_decide as Hid.
  - intros [= <-]. split; [apply list_elem_of_here|done].
  - intros H. destruct (IH H) as [Hin Hs]. split; [by apply list_elem_of_further|done].
Qed.

Lemma first_with_id_None (roster : list person) target :
  first_with_id roster target = None ↔ ∀ p, p ∈ roster → p !! "id" ≠ Some target.
Proof.
  induction roster as [|p rest IH]; simpl.
  - split; [|done]. intros _ p Hp. by apply not_elem_of_nil in Hp.
  - case_bool_decide as Hid.
    + split; [done|]. intros H. exfalso. apply (H p); [apply list_elem_of_here|done].
    + rewrite IH. split.
      * intros H q Hq. apply elem_of_cons in Hq as [->|Hq]; [done|by apply H].
      * intros H q Hq. apply H. by apply list_elem_of_further.
Qed.

(** When every record has an id, the scan finds the first record with the
    id reported to. *)
Lemma find_supervisor_complete (roster : list person) (person : person) target :
  Forall (λ p : gmap string string, is_Some (p !! "id")) roster →
  person !! "reportsTo" = Some target →
  find_supervisor roster person = Ok (first_with_id roster target).
Proof.
  intros H Ht. induction H as [|p rest [pid Hp] _ IH]; simpl; [done|].
  rewrite (getitem_Some _ _ _ Hp), (getitem_Some _ _ _ Ht).
  cbn [mbind result_bind]. rewrite Hp.
  destruct (String.eqb_spec pid target) as [->|Hne].
  - by rewrite bool_decide_eq_true_2.
  - rewrite bool_decide_eq_false_2; [done|]. by intros [= ?].
Qed.

(** Whenever the scan ends without an exception, that is what it found. *)
Lemma find_supervisor_Ok (roster : list person) (person : person) target found :
  person !! "reportsTo" = Some target →
  find_supervisor roster person = Ok found →
  found = first_with_id roster target.
Proof.
  intros Ht. induction roster as [|p rest IH]; simpl; [by intros [= <-]|].
  destruct (p !! "id") as [pid|] eqn:Hp.
  - rewrite (getitem_Some _ _ _ Hp), (getitem_Some _ _ _ Ht).
    cbn [mbind result_bind].
    destruct (String.eqb_spec pid target) as [->|Hne].
    + rewrite bool_decide_eq_true_2 by done. by intros [= <-].
    + rewrite bool_decide_eq_false_2; [done|]. by intros [= ?].
  - by rewrite (getitem_None _ _ Hp).
Qed.

Lemma add_edge_complete (roster : list person) (p : person) dot :
  Forall complete roster → complete p →
  add_edge roster p dot = Ok (extend dot (the_edge roster p)).
Proof.
  intros Hr [[rid Hid] _]. unfold add_edge, the_edge, supervised.
  destruct (get_truthy p "name"); simpl; [|by rewrite extend_nil].
  destruct (get_truthy p "reportsTo") eqn:Hrt; simpl; [|by rewrite extend_nil].
  destruct (get_truthy_Some _ _ Hrt) as (target & Ht & _).
  rewrite (find_supervisor_complete roster p target (complete_has_id _ Hr) Ht).
  cbn [mbind result_bind]. unfold get_default. rewrite Ht, Hid.
  destruct (first_with_id roster target) as [sup|] eqn:Hsup; [|by rewrite extend_nil].
  destruct (first_with_id_Some _ _ _ Hsup) as [_ Hsid].
  rewrite (dict_truthy_lookup _ _ _ Hsid). simpl.
  destruct (get_truthy sup "name"); [|by rewrite extend_nil].
  by rewrite (getitem_Some _ _ _ Ht), (getitem_Some _ _ _ Hid).
Qed.

(** Whenever the turn of a record ends without an exception, it has added
    the edge of the record, and a record that got an edge has an id. *)
Lemma add_edge_Ok (roster : list person) (p : person) dot dot' :
  add_edge roster p dot = Ok dot' →
  dot' = extend dot (the_edge roster p) ∧
  (the_edge roster p ≠ [] → is_Some (p !! "id")).
Proof.
  unfold add_edge, the_edge, supervised.
  destruct (get_truthy p "name"); simpl;
    [|intros [= <-]; by rewrite extend_nil].
  destruct (get_truthy p "reportsTo") eqn:Hrt; simpl;
    [|intros [= <-]; by rewrite extend_nil].
  destruct (get_truthy_Some _ _ Hrt) as (target & Ht & _).
  destruct (find_supervisor roster p) as [found|e] eqn:Hf; [|done].
  rewrite (find_supervisor_Ok roster p target found Ht Hf).
  cbn [mbind result_bind]. unfold get_default. rewrite Ht.
  destruct (first_with_id roster target) as [sup|] eqn:Hsup;
    [|intros [= <-]; by rewrite extend_nil].
  destruct (first_with_id_Some _ _ _ Hsup) as [_ Hsid].
  rewrite (dict_truthy_lookup _ _ _ Hsid). simpl.
  destruct (get_truthy sup "name"); [|intros [= <-]; by rewrite extend_nil].
  rewrite (getitem_Some _ _ _ Ht). cbn [mbind result_bind].
  destruct (p !! "id") as [rid|] eqn:Hid.
  - rewrite (getitem_Some _ _ _ Hid). intros [= <-]. split; [done|by eexists].
  - by rewrite (getitem_None _ _ Hid).
Qed.

Lemma add_edges_complete (roster people : list person) dot :
  Forall complete roster → Forall complete people →
  add_edges roster people dot = Ok (extend dot (flat_map (the_edge roster) people)).
Proof.
  intros Hr H. revert dot. induction H as [|p rest Hp _ IH]; intros dot; simpl.
  - by rewrite extend_nil.
  - rewrite (add_edge_complete _ _ _ Hr Hp). cbn [mbind result_bind].
    by rewrite IH, extend_extend.
Qed.

Lemma add_edges_Ok (roster people : list person) dot dot' :
  add_edges roster people dot = Ok dot' →
  dot' = extend dot (flat_map (the_edge roster) people) ∧
  Forall (λ p : gmap string string, the_edge roster p ≠ [] → is_Some (p !! "id")) people.
Proof.
  revert dot. induction people as [|p rest IH]; intros dot.
  - simpl. intros [= <-]. by rewrite extend_nil.
  - cbn [add_edges]. destruct (add_edge roster p dot) as [d|e] eqn:Hp; [|done].
    cbn [mbind result_bind]. intros H.
    destruct (add_edge_Ok roster p dot d Hp) as [-> Hid].
    destruct (IH _ H) as [-> Hrest]. split; [|by constructor].
    by rewrite extend_extend.
Qed.

(** ** The graph that is built *)

(** On a roster of complete records the graph is built: it holds the
    nodes in roster order, then the edges in roster order. *)
Lemma build_graph_complete (roster : list person) :
  Forall complete roster →
  build_graph roster =
    Ok (mkDigraph "Red Cross Incident Organization Chart" "pdf" (graph_body roster)).
Proof.
  intros H. unfold build_graph.
  rewrite (add_nodes_renderable _ _ (Forall_impl _ _ _ H complete_renderable)).
  cbn [mbind result_bind].
  rewrite (add_edges_complete _ _ _ H H). cbn [mbind result_bind mret result_ret].
  unfold graph_body, attr, add_stmt, extend, Digraph_new, preamble, caption; simpl.
  by rewrite <- !app_assoc.
Qed.

(** On any roster, a graph that is built is that graph; the node of every
    named record could be made, and every record with an edge has an id. *)
Lemma build_graph_Ok (roster : list person) dot :
  build_graph roster = Ok dot →
  dot = mkDigraph "Red Cross Incident Organization Chart" "pdf" (graph_body roster) ∧
  Forall renderable roster ∧
  Forall (λ p : gmap string string, the_edge roster p ≠ [] → is_Some (p !! "id")) roster.
Proof.
  unfold build_graph.
  destruct (add_nodes roster _) as [d1|e] eqn:Hn; [|done].
  pose proof (add_nodes_Ok _ _ _ Hn) as Hr.
  rewrite (add_nodes_renderable _ _ Hr) in Hn. injection Hn as <-.
  cbn [mbind result_bind].
  destruct (add_edges roster roster _) as [d2|e] eqn:He; [|done].
  destruct (add_edges_Ok _ _ _ _ He) as [-> Hid].
  cbn [mbind result_bind mret result_ret]. intros [= <-].
  split; [|done].
  unfold graph_body, attr, add_stmt, extend, Digraph_new, preamble, caption; simpl.
  by rewrite <- !app_assoc.
Qed.

Section Rendering.

Variable engine : Digraph -> string -> option string.

Lemma create_org_chart_raise (roster : list person) fmt w e :
  build_graph roster = Raise e →
  create_org_chart engine roster fmt w = (Raise e, w).
Proof. intros H. unfold create_org_chart, lift, mbind, io_bind. by rewrite H. Qed.

Lemma create_org_chart_ok (roster : list person) fmt w dot :
  lays_out engine → build_graph roster = Ok dot →
  ∃ w', create_org_chart engine roster fmt w = (Ok (set_format dot "svg"), w').
Proof.
  intros Hl H. unfold create_org_chart, lift, mbind, io_bind, render. rewrite H.
  simpl. destruct (Hl dot fmt) as [a1 ->].
  destruct (Hl (set_format dot "svg") "svg") as [a2 ->]. simpl. by eexists.
Qed.

(** The graph handed back does not depend on the files present nor on what
    was printed before. *)
Lemma create_org_chart_fst (roster : list person) fmt w :
  fst (create_org_chart engine roster fmt w) =
    dot ← build_graph roster;
    _ ← from_option Ok (Raise RenderEngineError) (engine dot fmt);
    _ ← from_option Ok (Raise RenderEngineError) (engine (set_format dot "svg") "svg");
    mret (set_format dot "svg").
Proof.
  unfold create_org_chart, lift, mbind, io_bind, render, result_bind.
  destruct (build_graph roster) as [dot|e]; [|done]. simpl.
  destruct (engine dot fmt); [|done]. simpl.
  by destruct (engine (set_format dot "svg") "svg").
Qed.

(** With an engine that does not fail, a roster of complete records is
    rendered. *)
Lemma complete_rendered (roster : list person) fmt w :
  lays_out engine → Forall complete roster →
  ∃ dot w', create_org_chart engine roster fmt w = (Ok dot, w').
Proof.
  intros Hl Hc.
  destruct (create_org_chart_ok roster fmt w _ Hl (build_graph_complete roster Hc))
    as [w' H].
  by eexists _, w'.
Qed.

(** Whatever the roster and the engine, a chart that is rendered holds the
    statements of [graph_body]. *)
Lemma rendered_body (roster : list person) fmt w dot w' :
  create_org_chart engine roster fmt w = (Ok dot, w') →
  body dot = graph_body roster ∧
  Forall renderable roster ∧
  Forall (λ p : gmap string string, the_edge roster p ≠ [] → is_Some (p !! "id")) roster.
Proof.
  intros H. pose proof (create_org_chart_fst roster fmt w) as Hf.
  rewrite H in Hf. cbn [fst] in Hf.
  destruct (build_graph roster) as [d|e] eqn:Hb; [|done].
  destruct (build_graph_Ok roster d Hb) as (-> & Hr & Hid).
  cbn [mbind result_bind] in Hf.
  destruct (engine _ fmt); [|done]. cbn [from_option mbind result_bind] in Hf.
  destruct (engine _ "svg"); [|done]. cbn [from_option mbind result_bind] in Hf.
  injection Hf as ->. done.
Qed.

End Rendering.

(** ** Nodes and edges of the graph that is built *)

Lemma node_names_app (a b : list stmt) :
  node_names (a ++ b) = node_names a ++ node_names b.
Proof. apply flat_map_app. Qed.

Lemma edges_of_app (a b : list stmt) :
  edges_of (a ++ b) = edges_of a ++ edges_of b.
Proof. apply flat_map_app. Qed.

Lemma node_names_the_edge (roster people : list person) :
  node_names (flat_map (the_edge roster) people) = [].
Proof.
  induction people as [|p rest IH]; simpl; [done|].
  rewrite node_names_app, IH, app_nil_r. unfold the_edge.
  by destruct (get_truthy p "name" && supervised roster p).
Qed.

Lemma edges_of_the_node (roster : list person) :
  edges_of (flat_map the_node roster) = [].
Proof.
  induction roster as [|p rest IH]; simpl; [done|].
  rewrite edges_of_app, IH, app_nil_r. unfold the_node.
  destruct (get_truthy p "name"); [|done].
  by destruct (make_label p), (pick_color p), (getitem p "id").
Qed.

Lemma node_names_nodes (roster : list person) :
  Forall renderable roster →
  Some <$> node_names (flat_map the_node roster) = roster_ids (filter named roster).
Proof.
  unfold roster_ids.
  induction 1 as [|p rest Hp _ IH]; simpl; [done|].
  rewrite node_names_app, fmap_app, IH.
  destruct (decide (named p)) as [Hn|Hn].
  - rewrite (filter_cons_True _ _ _ Hn).
    destruct (the_node_named p Hn Hp) as (rid & label & Hid & _ & ->).
    simpl. by rewrite Hid.
  - rewrite (filter_cons_False _ _ _ Hn). by rewrite (the_node_vacant p Hn).
Qed.

(** The node names of the graph are the ids of the named records. *)
Lemma node_names_graph_body (roster : list person) :
  Forall renderable roster →
  Some <$> node_names (graph_body roster) = roster_ids (filter named roster).
Proof.
  intros H. unfold graph_body.
  rewrite !node_names_app, node_names_the_edge. simpl. rewrite app_nil_r.
  by apply node_names_nodes.
Qed.

Lemma elem_of_edges (roster people : list person) tail head :
  (tail, head) ∈ edges_of (flat_map (the_edge roster) people) ↔
  ∃ p, p ∈ people ∧ named p ∧ supervised roster p = true ∧
       p !! "reportsTo" = Some tail ∧ get_default p "id" "" = head.
Proof.
  induction people as [|p rest IH]; simpl.
  - split; [intros H; by apply elem_of_nil in H|].
    intros (p & H & _). by apply elem_of_nil in H.
  - rewrite edges_of_app, elem_of_app, IH. split.
    + intros [H|(r & Hr & H)].
      * exists p. split; [apply list_elem_of_here|].
        unfold the_edge in H.
        destruct (get_truthy p "name") eqn:Hn; simpl in H; [|by apply elem_of_nil in H].
        destruct (supervised roster p) eqn:Hs; simpl in H; [|by apply elem_of_nil in H].
        apply list_elem_of_singleton in H as [= -> ->].
        repeat split; [done|].
        unfold supervised in Hs. apply andb_true_iff in Hs as [Ht _].
        destruct (get_truthy_Some _ _ Ht) as (t & Hrt & _).
        unfold get_default. by rewrite Hrt.
      * exists r. split; [by apply list_elem_of_further|done].
    + intros (r & Hr & Hn & Hs & Ht & Hh).
      apply elem_of_cons in Hr as [->|Hr].
      * left. unfold the_edge. unfold named in Hn. rewrite Hn, Hs. simpl.
        apply list_elem_of_singleton. unfold get_default in *. by rewrite Ht, <- Hh.
      * right. by exists r.
Qed.

(** The edges of the graph: one from the id reported to, to the record,
    for every named record whose supervisor is found and named. *)
Lemma edges_graph_body (roster : list person) tail head :
  (tail, head) ∈ edges_of (graph_body roster) ↔
  ∃ p, p ∈ roster ∧ named p ∧ supervised roster p = true ∧
       p !! "reportsTo" = Some tail ∧ get_default p "id" "" = head.
Proof.
  unfold graph_body.
  rewrite !edges_of_app, edges_of_the_node. simpl. rewrite app_nil_r.
  apply elem_of_edges.
Qed.

(** The node of a named record is in the graph. *)
Lemma node_in_graph_body (roster : list person) (p : person) :
  p ∈ roster → named p → renderable p →
  ∃ rid label,
    p !! "id" = Some rid ∧ make_label p = Ok label ∧
    node_stmt rid label
      [("fillcolor", get_default colors (get_default p "category" "") "#f0f0f0")]
      ∈ graph_body roster.
Proof.
  intros Hin Hn Hr.
  destruct (the_node_named p Hn Hr) as (rid & label & Hid & Hl & Hnode).
  exists rid, label. repeat split; [done..|]. unfold graph_body.
  apply elem_of_app. right. apply elem_of_app. left.
  apply list_elem_of_In, in_flat_map. exists p.
  split; [by apply list_elem_of_In|]. rewrite Hnode. by left.
Qed.

(** With distinct ids, a record of the roster is known by its id. *)
Lemma roster_ids_inj (roster : list person) (p r : person) :
  NoDup (roster_ids roster) → p ∈ roster → r ∈ roster →
  p !! "id" = r !! "id" → p = r.
Proof.
  unfold roster_ids. induction roster as [|x rest IH]; simpl.
  - intros _ H. by apply elem_of_nil in H.
  - intros Hnd Hp Hr Heq. apply NoDup_cons in Hnd as [Hx Hnd].
    apply elem_of_cons in Hp as [->|Hp]; apply elem_of_cons in Hr as [->|Hr].
    + done.
    + exfalso. apply Hx. rewrite Heq. by apply list_elem_of_fmap_2.
    + exfalso. apply Hx. rewrite <- Heq. by apply list_elem_of_fmap_2.
    + by apply IH.
Qed.

(** With distinct ids, the supervisor found is the one record with that id. *)
Lemma first_with_id_unique (roster : list person) (sup : person) target :
  NoDup (roster_ids roster) → sup ∈ roster → sup !! "id" = Some target →
  first_with_id roster target = Some sup.
Proof.
  intros Hnd Hin Hid.
  destruct (first_with_id roster target) as [s|] eqn:Hf.
  - destruct (first_with_id_Some _ _ _ Hf) as [Hs Hsid].
    f_equal. apply (roster_ids_inj roster); [done..|congruence].
  - exfalso. by apply (proj1 (first_with_id_None roster target) Hf sup).
Qed.

Lemma blank_engine_lays_out : lays_out blank_engine.
Proof. intros dot fmt. by eexists. Qed.

(** ** Strings *)

Lemma append_nil_l (s : string) : "" +:+ s = s.
Proof. reflexivity. Qed.

Lemma append_cons (x : Ascii.ascii) (a b : string) :
  String x a +:+ b = String x (a +:+ b).
Proof. reflexivity. Qed.

Lemma append_assoc (a b c : string) : (a +:+ b) +:+ c = a +:+ (b +:+ c).
Proof.
  induction a as [|x a IH]; [by rewrite !append_nil_l|].
  by rewrite !append_cons, IH.
Qed.

Lemma prefix_true (a s : string) :
  String.prefix a s = true ↔ ∃ post, s = a +:+ post.
Proof.
  revert s. induction a as [|x a IH]; intros s; simpl.
  - split; [by exists s|]. by destruct s.
  - destruct s as [|y s]; [split; [done|by intros [post ?]]|].
    setoid_rewrite append_cons. cbn [String.prefix].
    destruct (Ascii.ascii_dec x y) as [->|Hne].
    + rewrite IH. split; intros [post H]; exists post; congruence.
    + split; [done|]. intros [post [= ? ?]]. done.
Qed.

Lemma includes_true (sub s : string) :
  PyStr.includes sub s = true ↔ occurs_in sub s.
Proof.
  unfold occurs_in. induction s as [|c s IH].
  - cbn [PyStr.includes]. rewrite orb_false_r, prefix_true. split.
    + intros [post H]. by exists "", post.
    + intros (pre & post & H). destruct pre; [by exists post|done].
  - cbn [PyStr.includes]. rewrite orb_true_iff, prefix_true, IH. split.
    + intros [[post H]|(pre & post & H)].
      * by exists "", post.
      * exists (String c pre), post. by rewrite append_cons, H.
    + intros (pre & post & H). destruct pre as [|x pre].
      * left. by exists post.
      * right. exists pre, post. rewrite append_cons in H. congruence.
Qed.

Lemma occurs_in_trans (a b c : string) :
  occurs_in a b → occurs_in b c → occurs_in a c.
Proof.
  intros (p1 & q1 & ->) (p2 & q2 & ->).
  exists (p2 +:+ p1), (q1 +:+ q2). by rewrite !append_assoc.
Qed.

(** What a string does not hold, no part of it holds. *)
Lemma includes_false_part (sub content s : string) :
  PyStr.includes sub s = false → occurs_in content s →
  PyStr.includes sub content = false.
Proof.
  intros Hs Hc. destruct (PyStr.includes sub content) eqn:H; [|done].
  apply includes_true in H.
  pose proof (proj2 (includes_true sub s) (occurs_in_trans _ _ _ H Hc)). congruence.
Qed.

(** [replace] goes from left to right: an occurrence at the front is
    replaced and the scan goes on behind it; any other first character is
    kept and the scan goes on behind it. *)
Lemma replace_scan_skip (old new t s : string) :
  PyStr.replace_scan old new (t +:+ s) (String.length t) = PyStr.replace_scan old new s 0.
Proof.
  induction t as [|c t IH]; [by destruct s|].
  rewrite append_cons. cbn [String.length PyStr.replace_scan]. exact IH.
Qed.

Lemma replace_occurrence (old new s : string) :
  old ≠ "" →
  PyStr.replace old new (old +:+ s) = new +:+ PyStr.replace old new s.
Proof.
  destruct old as [|a old]; [done|]. intros _. unfold PyStr.replace.
  rewrite append_cons. cbn [PyStr.replace_scan].
  rewrite <- append_cons.
  rewrite (proj2 (prefix_true (String a old) (String a old +:+ s))) by by exists s.
  cbn [String.length]. rewrite Nat.sub_1_r, Nat.pred_succ.
  by rewrite replace_scan_skip.
Qed.

Lemma replace_other (old new : string) (c : Ascii.ascii) (s : string) :
  old ≠ "" → String.prefix old (String c s) = false →
  PyStr.replace old new (String c s) = String c (PyStr.replace old new s).
Proof.
  destruct old as [|a old]; [done|]. intros _ H. unfold PyStr.replace.
  cbn [PyStr.replace_scan]. by rewrite H.
Qed.

Example replace_domain :
  PyStr.replace "@redcross.org" "" "Ryan.Lock3@redcross.org" = "Ryan.Lock3".
Proof. reflexivity. Qed.

Example replace_non_overlapping : PyStr.replace "aa" "b" "aaaaa" = "bba".
Proof. reflexivity. Qed.

Example replace_empty_pattern : PyStr.replace "" "-" "abc" = "-a-b-c-".
Proof. reflexivity. Qed.

(** An address that ends in the one domain is shown by its local part. *)
Lemma replace_strips_domain (loc : string) :
  PyStr.includes "@" loc = false →
  PyStr.replace "@redcross.org" "" (loc +:+ "@redcross.org") = loc.
Proof.
  unfold PyStr.replace. induction loc as [|c loc IH]; [done|].
  cbn [PyStr.includes]. intros H. apply orb_false_iff in H as [Hc Hl].
  rewrite append_cons. cbn [PyStr.replace_scan].
  assert (String.prefix "@redcross.org" (String c (loc +:+ "@redcross.org")) = false) as ->.
  { cbn [String.prefix] in *.
    destruct (Ascii.ascii_dec _ c); [by destruct loc|done]. }
  by rewrite (IH Hl).
Qed.

(** The table has no other keys than its five. *)
Lemma colors_lookup_None (c : string) :
  c ∉ ["Command"; "Operations"; "Logistics Section"; "24 Hour Lines"; "default"] →
  colors !! c = None.
Proof.
  intros H. unfold colors.
  rewrite !lookup_insert_ne, lookup_singleton_ne; [done|..];
    intros <-; apply H; repeat constructor.
Qed.

Example fill_color_Command :
  pick_color {[ "id" := "x"; "category" := "Command" ]} = Ok "#ffcccc".
Proof. reflexivity. Qed.

Example fill_color_Finance :
  pick_color {[ "id" := "x"; "category" := "Finance" ]} = Ok "#f0f0f0".
Proof. reflexivity. Qed.

Lemma make_label_email (p : person) (e : string) :
  named p → is_Some (p !! "title") → p !! "email" = Some e → e ≠ "" →
  make_label p =
    Ok ((label_lead p +:+ "<FONT POINT-SIZE='9'>Email: "
           +:+ PyStr.replace "@redcross.org" "" e +:+ "</FONT>") +:+ ">").
Proof.
  intros Hn [t Ht] He Hne.
  destruct (get_truthy_Some _ _ Hn) as (n & Hname & _).
  unfold make_label, label_lead, get_default.
  rewrite (getitem_Some _ _ _ Ht), (getitem_Some _ _ _ Hname), Ht, Hname.
  cbn [mbind result_bind]. rewrite (get_truthy_true _ _ _ He Hne).
  rewrite (getitem_Some _ _ _ He).
  destruct (get_truthy p "phone") eqn:Hp; [|done].
  destruct (get_truthy_Some _ _ Hp) as (ph & Hph & _).
  by rewrite (getitem_Some _ _ _ Hph), Hph.
Qed.

Example email_display_sample :
  make_label {[ "id" := "cmd-rcco"; "title" := "RCCO"; "name" := "Ryan Lock";
                "email" := "Ryan.Lock3@redcross.org" ]}
  = Ok "<<B>RCCO</B><BR/><B>Ryan Lock</B><BR/><FONT POINT-SIZE='9'>Email: Ryan.Lock3</FONT>>".
Proof. reflexivity. Qed.

(** ** Records with a field missing *)

Lemma make_label_raises (p : person) e :
  named p → make_label p = Raise e → p !! "title" = None ∧ e = KeyError "title".
Proof.
  intros Hn. destruct (get_truthy_Some _ _ Hn) as (n & Hname & _).
  unfold make_label. destruct (p !! "title") as [t|] eqn:Ht.
  2:{ rewrite (getitem_None _ _ Ht). cbn [mbind result_bind]. by intros [= <-]. }
  rewrite (getitem_Some _ _ _ Ht), (getitem_Some _ _ _ Hname). cbn [mbind result_bind].
  destruct (get_truthy p "phone") eqn:Hp.
  - destruct (get_truthy_Some _ _ Hp) as (ph & Hph & _).
    rewrite (getitem_Some _ _ _ Hph). cbn [mbind result_bind mret result_ret].
    destruct (get_truthy p "email") eqn:He; [|done].
    destruct (get_truthy_Some _ _ He) as (em & Hem & _).
    by rewrite (getitem_Some _ _ _ Hem).
  - cbn [mbind result_bind mret result_ret].
    destruct (get_truthy p "email") eqn:He; [|done].
    destruct (get_truthy_Some _ _ He) as (em & Hem & _).
    by rewrite (getitem_Some _ _ _ Hem).
Qed.

(** The turn of a record raises nothing but [KeyError] on [title] or [id],
    and it does raise when the record is named and lacks one of them. *)
Lemma add_node_raises (p : person) dot e :
  add_node p dot = Raise e → e = KeyError "title" ∨ e = KeyError "id".
Proof.
  unfold add_node. destruct (get_truthy p "name") eqn:Hn; [|done].
  destruct (make_label p) as [label|e'] eqn:Hl.
  - rewrite pick_color_total. cbn [mbind result_bind].
    destruct (p !! "id") as [i|] eqn:Hi; [by rewrite (getitem_Some _ _ _ Hi)|].
    rewrite (getitem_None _ _ Hi). intros [= <-]. by right.
  - cbn [mbind result_bind]. intros [= <-].
    destruct (make_label_raises p e' Hn Hl) as [_ ->]. by left.
Qed.

Lemma add_node_incomplete (p : person) dot :
  named p → p !! "title" = None ∨ p !! "id" = None →
  ∃ e, add_node p dot = Raise e.
Proof.
  intros Hn Hmiss. unfold add_node. rewrite Hn.
  destruct (make_label p) as [label|e'] eqn:Hl; [|by eexists].
  rewrite pick_color_total. cbn [mbind result_bind].
  destruct Hmiss as [Ht|Hi].
  - exfalso. unfold make_label in Hl. by rewrite (getitem_None _ _ Ht) in Hl.
  - rewrite (getitem_None _ _ Hi). by eexists.
Qed.

Lemma add_nodes_incomplete (roster : list person) (p : person) dot :
  p ∈ roster → named p → p !! "title" = None ∨ p !! "id" = None →
  ∃ key, (key = "title" ∨ key = "id") ∧ add_nodes roster dot = Raise (KeyError key).
Proof.
  intros Hin Hn Hmiss. revert dot.
  induction roster as [|q rest IH]; intros dot; [by apply elem_of_nil in Hin|].
  cbn [add_nodes]. destruct (add_node q dot) as [d|e] eqn:Hq.
  - cbn [mbind result_bind]. apply elem_of_cons in Hin as [->|Hin]; [|by apply IH].
    destruct (add_node_incomplete q dot Hn Hmiss) as [e He]. congruence.
  - cbn [mbind result_bind].
    destruct (add_node_raises q dot e Hq) as [->| ->]; eexists; split; try reflexivity; auto.
Qed.

Example missing_title_raises :
  build_graph [ {[ "id" := "a"; "name" := "Ann" ]} ] = Raise (KeyError "title").
Proof. reflexivity. Qed.

Example missing_id_raises :
  build_graph [ {[ "title" := "Lead"; "name" := "Ann" ]} ] = Raise (KeyError "id").
Proof. reflexivity. Qed.

(** ** The program as a whole *)

Lemma load_roster_present (json_loads : string -> result (list person))
    (w : World) (content : string) :
  files w !! "roster.json" = Some content →
  load_roster_from_localstorage json_loads w = (json_loads content, w).
Proof.
  intros Hfile.
  unfold load_roster_from_localstorage, path_exists, json_load_file, mbind, io_bind.
  rewrite bool_decide_eq_true_2 by (rewrite Hfile; by eexists).
  rewrite Hfile. by destruct (json_loads content).
Qed.

Lemma main_raises_in_renderer (json_loads : string -> result (list person))
    (engine : Digraph -> string -> option string)
    (w : World) (content : string) (roster : list person) (e : exn) :
  files w !! "roster.json" = Some content → json_loads content = Ok roster →
  (∀ w1, create_org_chart engine roster "pdf" w1 = (Raise e, w1)) →
  fst (main json_loads engine w) = Raise e.
Proof.
  intros Hfile Hparse Hraise. unfold main.
  unfold mbind at 1, io_bind at 1, print at 1.
  unfold mbind at 1, io_bind at 1, print at 1.
  unfold mbind at 1, io_bind at 1.
  rewrite (load_roster_present json_loads _ content) by done. rewrite Hparse.
  unfold mbind at 1, io_bind at 1, print at 1.
  unfold mbind at 1, io_bind at 1, print at 1.
  unfold mbind at 1, io_bind at 1, print at 1.
  unfold mbind at 1, io_bind at 1. by rewrite Hraise.
Qed.

(** * The claims *)

(** C1, as stated, fails: in [blank_id_roster] the aide reports to the
    empty id, which is the id of the director, both are named, the records are
    complete and their ids distinct, the chart is rendered, and there is no
    edge from the director to the aide: [person.get('reportsTo')] is false
    for the empty string. *)
Lemma C1_blank_reportsTo_counterexample :
  let R : person := {[ "id" := "aide"; "title" := "Aide"; "name" := "Bob"; "reportsTo" := "" ]} in
  lays_out blank_engine ∧ Forall complete blank_id_roster ∧
  NoDup (roster_ids blank_id_roster) ∧
  R ∈ blank_id_roster ∧ R !! "reportsTo" = Some "" ∧ R !! "id" = Some "aide" ∧
  ∃ dot w',
    create_org_chart blank_engine blank_id_roster "pdf" empty_world = (Ok dot, w') ∧
    ¬ (("", "aide") ∈ edges_of (body dot) ↔
       named R ∧ ∃ S : person, S ∈ blank_id_roster ∧ S !! "id" = Some "" ∧ named S).
Proof.
  intros R. split; [apply blank_engine_lays_out|].
  split; [by apply (bool_decide_unpack _); vm_compute|].
  split; [by apply (bool_decide_unpack _); vm_compute|].
  split; [apply list_elem_of_further, list_elem_of_here|].
  split; [reflexivity|]. split; [reflexivity|].
  eexists _, _. split; [vm_compute; reflexivity|].
  intros [_ H].
  assert (("", "aide") ∈ @nil (string * string)) as Hin.
  { apply H. split; [reflexivity|].
    exists {[ "id" := ""; "title" := "Director"; "name" := "Ann" ]}.
    split; [apply list_elem_of_here|]. split; reflexivity. }
  by apply elem_of_nil in Hin.
Qed.

(** C1, amended: take a roster with distinct ids and a record [R] of it
    with id [rid] whose [reportsTo] is [P].  Whenever the chart is rendered,
    the edge from [P] to [R] is in the graph if and only if [R] has a
    non-empty name, [P] is not the empty string, and [P] is the id of a
    record of the roster that has a non-empty name.  And the chart is
    rendered, without an error, when the records are complete and the
    layout engine does not fail. *)
Theorem C1_edge_iff_both_named (engine : Digraph -> string -> option string)
    (roster : list person) (fmt : string) (w : World) (R : person) (P rid : string) :
  NoDup (roster_ids roster) →
  R ∈ roster → R !! "reportsTo" = Some P → R !! "id" = Some rid →
  (lays_out engine → Forall complete roster →
     ∃ dot w', create_org_chart engine roster fmt w = (Ok dot, w')) ∧
  (∀ dot w', create_org_chart engine roster fmt w = (Ok dot, w') →
     ((P, rid) ∈ edges_of (body dot) ↔
      named R ∧ P ≠ "" ∧ ∃ S : person, S ∈ roster ∧ S !! "id" = Some P ∧ named S)).
Proof.
  intros Hnd HR HP Hid. split; [by apply complete_rendered|].
  intros dot w' Hrun.
  destruct (rendered_body engine roster fmt w dot w' Hrun) as (Hbody & Hren & _).
  rewrite Hbody, edges_graph_body. split.
  - intros (p & Hp & Hn & Hs & Ht & Hh).
    assert (p = R) as ->.
    { apply (roster_ids_inj roster); [done..|].
      rewrite Forall_forall in Hren. destruct (Hren p Hp Hn) as [_ [i Hi]].
      unfold get_default in Hh. rewrite Hi in Hh. congruence. }
    split; [done|]. unfold supervised in Hs. apply andb_true_iff in Hs as [Hrt Hs].
    destruct (get_truthy_Some _ _ Hrt) as (t & Ht' & Hne).
    assert (t = P) as -> by congruence. split; [done|].
    unfold get_default in Hs. rewrite HP in Hs.
    destruct (first_with_id roster P) as [sup|] eqn:Hf; [|done].
    destruct (first_with_id_Some _ _ _ Hf) as [Hin Hsid]. by exists sup.
  - intros (Hn & Hne & S & HS & HSid & HSn).
    exists R. repeat split; [done..| |done|].
    + unfold supervised, get_default. rewrite HP.
      rewrite (get_truthy_true _ _ _ HP Hne).
      by rewrite (first_with_id_unique roster S P Hnd HS HSid).
    + unfold get_default. by rewrite Hid.
Qed.

Lemma C1_edge_iff_both_named_witness :
  ∃ dot w',
    create_org_chart blank_engine sample_roster "pdf" empty_world = (Ok dot, w') ∧
    (("cmd-dro", "ops-ad") ∈ edges_of (body dot) ↔
     named {[ "id" := "ops-ad"; "title" := "AD Operations"; "name" := "Patricia DAlessandro";
              "phone" := "319-404-2096"; "email" := "Patricia.DAlessandro2@redcross.org";
              "category" := "Operations"; "reportsTo" := "cmd-dro" ]} ∧
     "cmd-dro" ≠ "" ∧
     ∃ S : person, S ∈ sample_roster ∧ S !! "id" = Some "cmd-dro" ∧ named S).
Proof.
  destruct (C1_edge_iff_both_named blank_engine sample_roster "pdf" empty_world
              {[ "id" := "ops-ad"; "title" := "AD Operations"; "name" := "Patricia DAlessandro";
                 "phone" := "319-404-2096"; "email" := "Patricia.DAlessandro2@redcross.org";
                 "category" := "Operations"; "reportsTo" := "cmd-dro" ]}
              "cmd-dro" "ops-ad") as [Hrun Hedge].
  - by apply (bool_decide_unpack _); vm_compute.
  - do 3 apply list_elem_of_further. apply list_elem_of_here.
  - reflexivity.
  - reflexivity.
  - destruct Hrun as (dot & w' & H).
    + intros dot fmt. by eexists.
    + by apply (bool_decide_unpack _); vm_compute.
    + exists dot, w'. split; [exact H|]. exact (Hedge dot w' H).
Defined.

(** C2: take any roster.  Whenever the chart is rendered, the node
    statements of the graph, in order, are keyed by the ids of the records
    with a non-empty name, in roster order: one node for each such record
    and none for a record whose name is absent or empty.  The same holds
    turn by turn: the turn of a named record adds one node, the turn of any
    other record adds none.  And the chart is rendered when the records are
    complete and the layout engine does not fail. *)
Theorem C2_one_node_per_named_record (engine : Digraph -> string -> option string)
    (roster : list person) (fmt : string) (w : World) :
  (lays_out engine → Forall complete roster →
     ∃ dot w', create_org_chart engine roster fmt w = (Ok dot, w')) ∧
  (∀ dot w', create_org_chart engine roster fmt w = (Ok dot, w') →
     Some <$> node_names (body dot) = roster_ids (filter named roster)) ∧
  (∀ (p : person) (d d' : Digraph), add_node p d = Ok d' →
     length (node_names (body d')) =
       length (node_names (body d)) + (if decide (named p) then 1 else 0)).
Proof.
  split; [by apply complete_rendered|]. split.
  - intros dot w' Hrun.
    destruct (rendered_body engine roster fmt w dot w' Hrun) as (-> & Hren & _).
    by apply node_names_graph_body.
  - intros p d d' Hp. pose proof (add_node_Ok p d d' Hp) as Hr.
    rewrite (add_node_renderable p d Hr) in Hp. injection Hp as <-.
    cbn [extend body]. rewrite node_names_app, length_app. f_equal.
    destruct (decide (named p)) as [Hn|Hn].
    + by destruct (the_node_named p Hn Hr) as (rid & label & _ & _ & ->).
    + by rewrite (the_node_vacant p Hn).
Qed.

Lemma C2_one_node_per_named_record_witness :
  ∃ dot w',
    create_org_chart blank_engine dangling_roster "pdf" empty_world = (Ok dot, w') ∧
    Some <$> node_names (body dot) = roster_ids (filter named dangling_roster).
Proof.
  destruct (C2_one_node_per_named_record blank_engine dangling_roster "pdf" empty_world)
    as (Hrun & Hnodes & _).
  destruct Hrun as (dot & w' & H).
  - intros dot fmt. by eexists.
  - by apply (bool_decide_unpack _); vm_compute.
  - exists dot, w'. split; [exact H|]. exact (Hnodes dot w' H).
Defined.

(** C3: take a roster and a record of it that reports to an id that no
    record of the roster has.  Whenever the chart is rendered, the graph has
    no edge that leaves that id: in particular none to the record.  And the
    chart is rendered, no exception is raised, when the records are complete
    and the layout engine does not fail. *)
Theorem C3_dangling_reference_omitted (engine : Digraph -> string -> option string)
    (roster : list person) (fmt : string) (w : World) (R : person) (P : string) :
  R ∈ roster → R !! "reportsTo" = Some P →
  (∀ S : person, S ∈ roster → S !! "id" ≠ Some P) →
  (lays_out engine → Forall complete roster →
     ∃ dot w', create_org_chart engine roster fmt w = (Ok dot, w')) ∧
  (∀ dot w', create_org_chart engine roster fmt w = (Ok dot, w') →
     ∀ head, (P, head) ∉ edges_of (body dot)).
Proof.
  intros HR HP Hnone. split; [by apply complete_rendered|].
  intros dot w' Hrun head.
  destruct (rendered_body engine roster fmt w dot w' Hrun) as (-> & _ & _).
  rewrite edges_graph_body. intros (p & Hp & _ & Hs & Ht & _).
  unfold supervised, get_default in Hs. rewrite Ht in Hs.
  apply andb_true_iff in Hs as [_ Hs].
  by rewrite (proj2 (first_with_id_None roster P) Hnone) in Hs.
Qed.

Lemma C3_dangling_reference_omitted_witness :
  ∃ dot w',
    create_org_chart blank_engine dangling_roster "pdf" empty_world = (Ok dot, w') ∧
    ∀ head, ("ghost", head) ∉ edges_of (body dot).
Proof.
  destruct (C3_dangling_reference_omitted blank_engine dangling_roster "pdf" empty_world
              {[ "id" := "b"; "title" := "Aide"; "name" := "Bob"; "reportsTo" := "ghost" ]}
              "ghost") as [Hrun Hedges].
  - apply list_elem_of_further, list_elem_of_here.
  - reflexivity.
  - apply Forall_forall. by apply (bool_decide_unpack _); vm_compute.
  - destruct Hrun as (dot & w' & H).
    + intros dot fmt. by eexists.
    + by apply (bool_decide_unpack _); vm_compute.
    + exists dot, w'. split; [exact H|]. exact (Hedges dot w' H).
Defined.

(** C4: when there is no roster file the loader returns the built-in
    sequence, which has 10 records, the first with id [cmd-dro] and title
    [DRO Director]; nothing is written or printed. *)
Theorem C4_default_roster_without_file (json_loads : string -> result (list person))
    (w : World) :
  files w !! "roster.json" = None →
  load_roster_from_localstorage json_loads w = (Ok sample_roster, w) ∧
  length sample_roster = 10 ∧
  ∃ first : person, head sample_roster = Some first ∧
    first !! "id" = Some "cmd-dro" ∧ first !! "title" = Some "DRO Director".
Proof.
  intros H. split; [|split; [reflexivity|]].
  - unfold load_roster_from_localstorage, path_exists, mbind, io_bind.
    rewrite H. by rewrite bool_decide_eq_false_2 by by intros [? ?].
  - eexists. split; [reflexivity|]. split; reflexivity.
Qed.

Lemma C4_default_roster_without_file_witness :
  load_roster_from_localstorage fixed_reader empty_world = (Ok sample_roster, empty_world) ∧
  length sample_roster = 10 ∧
  ∃ first : person, head sample_roster = Some first ∧
    first !! "id" = Some "cmd-dro" ∧ first !! "title" = Some "DRO Director".
Proof.
  apply (C4_default_roster_without_file fixed_reader empty_world). reflexivity.
Defined.

(** C5: take a record [R] of a roster that has a non-empty name.  Whenever
    the chart is rendered, the node of [R] is filled with [#ffcccc] when
    the category of [R] is [Command], and with the default gray [#f0f0f0]
    when the category is absent or is none of the four categories of the
    table (the key [default] of the table names the gray itself).  And the
    chart is rendered when the records are complete and the layout engine
    does not fail. *)
Theorem C5_fill_color_by_category (engine : Digraph -> string -> option string)
    (roster : list person) (fmt : string) (w : World) (R : person) :
  R ∈ roster → named R →
  (lays_out engine → Forall complete roster →
     ∃ dot w', create_org_chart engine roster fmt w = (Ok dot, w')) ∧
  (∀ dot w', create_org_chart engine roster fmt w = (Ok dot, w') →
     ∃ rid label color,
       R !! "id" = Some rid ∧
       (∀ d, add_node R d = Ok (node d rid label [("fillcolor", color)])) ∧
       node_stmt rid label [("fillcolor", color)] ∈ body dot ∧
       (R !! "category" = Some "Command" → color = "#ffcccc") ∧
       (R !! "category" = None → color = "#f0f0f0") ∧
       (∀ c, R !! "category" = Some c →
          c ∉ ["Command"; "Operations"; "Logistics Section"; "24 Hour Lines"] →
          color = "#f0f0f0")).
Proof.
  intros HR Hn. split; [by apply complete_rendered|].
  intros dot w' Hrun.
  destruct (rendered_body engine roster fmt w dot w' Hrun) as (-> & Hren & _).
  assert (renderable R) as Hr by (rewrite Forall_forall in Hren; by apply Hren).
  destruct (node_in_graph_body roster R HR Hn Hr) as (rid & label & Hid & Hlab & Hin).
  exists rid, label, (get_default colors (get_default R "category" "") "#f0f0f0").
  split; [done|]. split; [|split; [done|]].
  - intros d. rewrite (add_node_renderable R d Hr).
    unfold the_node. rewrite Hn, Hlab, pick_color_total, (getitem_Some _ _ _ Hid). done.
  - split; [|split].
    + intros Hcat. unfold get_default at 2. by rewrite Hcat.
    + intros Hcat. unfold get_default at 2. by rewrite Hcat.
    + intros c Hcat Hnot. unfold get_default at 2. rewrite Hcat.
      destruct (decide (c = "default")) as [->|Hd]; [done|].
      unfold get_default. rewrite colors_lookup_None; [done|].
      intros Hmem. apply Hnot.
      rewrite !elem_of_cons, elem_of_nil in Hmem. rewrite !elem_of_cons, elem_of_nil.
      destruct Hmem as [H|[H|[H|[H|[H|[]]]]]];
        [by left|by right; left|by right; right; left|by right; right; right; left|done].
Qed.

Lemma C5_fill_color_by_category_witness :
  ∃ dot w',
    create_org_chart blank_engine dangling_roster "pdf" empty_world = (Ok dot, w') ∧
    node_stmt "a" "<<B>Lead</B><BR/><B>Ann</B><BR/>>" [("fillcolor", "#f0f0f0")] ∈ body dot.
Proof.
  destruct (C5_fill_color_by_category blank_engine dangling_roster "pdf" empty_world
              {[ "id" := "a"; "title" := "Lead"; "name" := "Ann" ]}) as [Hrun Hnode].
  - apply list_elem_of_here.
  - reflexivity.
  - destruct Hrun as (dot & w' & H).
    + intros dot fmt. by eexists.
    + by apply (bool_decide_unpack _); vm_compute.
    + exists dot, w'. split; [exact H|].
      destruct (Hnode dot w' H) as (rid & label & color & Hid & Hadd & Hin & _ & Hgray & _).
      injection Hid as <-. rewrite (Hgray eq_refl) in Hin, Hadd.
      specialize (Hadd (Digraph_new "")). injection Hadd as <-. exact Hin.
Defined.

(** C6, on the built-in roster: the chart is rendered with ten labels, and
    the script's tests fail on every label and on every part of a label, so
    whatever text elements the layout engine makes of the labels, none gets
    a click handler.  The labels announce the contacts by [Phone: ] and
    [Email: ]; the script looks for a telephone sign and an envelope sign. *)
Theorem C6_script_matches_no_label :
  ∃ dot w',
    create_org_chart blank_engine sample_roster "pdf" empty_world = (Ok dot, w') ∧
    length (labels_of (body dot)) = 10 ∧
    Forall (λ label, ∀ content, occurs_in content label →
              Script.phone_clickable content = false ∧
              Script.email_clickable content = false)
           (labels_of (body dot)) ∧
    PyStr.includes Script.phone_test_source Wrapper.html_content = true ∧
    PyStr.includes Script.email_test_source Wrapper.html_content = true.
Proof.
  eexists _, _. split; [vm_compute; reflexivity|]. split; [reflexivity|].
  split; [|split; vm_compute; reflexivity].
  assert (Forall (λ label, PyStr.includes Script.phone_marker label = false ∧
                           PyStr.includes Script.email_marker label = false)
            (labels_of (graph_body sample_roster)))
    as H by (by apply (bool_decide_unpack _); vm_compute).
  eapply Forall_impl; [exact H|]. intros label [Hp He] content Hc.
  unfold Script.phone_clickable, Script.email_clickable.
  rewrite (includes_false_part _ _ _ Hp Hc), (includes_false_part _ _ _ He Hc).
  by rewrite !andb_false_r.
Qed.

(** C7: the loader hands back what the roster file holds, whatever the
    records are; a record of it that has a non-empty name and lacks its
    title or its id is met only by the renderer, which raises [KeyError] on
    [title] or on [id] while it adds the nodes, before anything is laid
    out; the program as a whole ends with that exception. *)
Theorem C7_loader_accepts_renderer_raises
    (json_loads : string -> result (list person))
    (engine : Digraph -> string -> option string)
    (w : World) (content : string) (roster : list person) (fmt : string) (p : person) :
  files w !! "roster.json" = Some content → json_loads content = Ok roster →
  p ∈ roster → named p → p !! "title" = None ∨ p !! "id" = None →
  load_roster_from_localstorage json_loads w = (Ok roster, w) ∧
  ∃ key, (key = "title" ∨ key = "id") ∧
    (∀ w1, create_org_chart engine roster fmt w1 = (Raise (KeyError key), w1)) ∧
    fst (main json_loads engine w) = Raise (KeyError key).
Proof.
  intros Hfile Hparse Hin Hn Hmiss. split.
  - rewrite (load_roster_present json_loads w content Hfile). by rewrite Hparse.
  - set (dot0 := attr (attr (attr (Digraph_new "Red Cross Incident Organization Chart")
                   None [("rankdir", "TB")])
                   (Some "node")
                   [("shape", "box"); ("style", "rounded,filled");
                    ("fontname", "Arial"); ("fontsize", "10")])
                   (Some "edge") [("color", "gray"); ("arrowsize", "0.8")]).
    destruct (add_nodes_incomplete roster p dot0 Hin Hn Hmiss) as (key & Hkey & Hraise).
    assert (build_graph roster = Raise (KeyError key)) as Hb.
    { unfold build_graph. fold dot0. by rewrite Hraise. }
    exists key. split; [done|]. split.
    + intros w1. by apply create_org_chart_raise.
    + apply (main_raises_in_renderer json_loads engine w content roster); [done..|].
      intros w1. by apply create_org_chart_raise.
Qed.

Lemma C7_loader_accepts_renderer_raises_witness :
  load_roster_from_localstorage fixed_reader roster_world
    = (Ok [ {[ "id" := "a"; "title" := "Lead"; "name" := "Ann" ]}; {[ "name" := "Bob" ]} ],
       roster_world) ∧
  ∃ key, (key = "title" ∨ key = "id") ∧
    (∀ w1, create_org_chart blank_engine
             [ {[ "id" := "a"; "title" := "Lead"; "name" := "Ann" ]}; {[ "name" := "Bob" ]} ]
             "pdf" w1 = (Raise (KeyError key), w1)) ∧
    fst (main fixed_reader blank_engine roster_world) = Raise (KeyError key).
Proof.
  apply (C7_loader_accepts_renderer_raises fixed_reader blank_engine roster_world "[...]"
           _ "pdf" {[ "name" := "Bob" ]}).
  - reflexivity.
  - reflexivity.
  - apply list_elem_of_further, list_elem_of_here.
  - reflexivity.
  - left. reflexivity.
Defined.

(** C8: the outcome of rendering a roster, the graph description handed
    back or the exception raised, is the same whatever files exist and
    whatever was printed before; so rendering a second time, after the first
    has written its artifacts, gives the same graph description again. *)
Theorem C8_graph_determined_by_roster (engine : Digraph -> string -> option string)
    (roster : list person) (fmt : string) (w1 w2 : World) :
  fst (create_org_chart engine roster fmt w1) = fst (create_org_chart engine roster fmt w2) ∧
  fst (create_org_chart engine roster fmt (snd (create_org_chart engine roster fmt w1)))
    = fst (create_org_chart engine roster fmt w1).
Proof. by rewrite !create_org_chart_fst. Qed.

(** C9: take a record [R] of a roster that has a non-empty name and an
    email.  Whenever the chart is rendered, the label of the node of [R]
    shows, on its email line, the address with the occurrences of
    [@redcross.org] replaced by nothing, not the address as stored; for an
    address made of a local part and that domain, only the local part is
    shown.  And the chart is rendered when the records are complete and the
    layout engine does not fail. *)
Theorem C9_label_email_without_domain (engine : Digraph -> string -> option string)
    (roster : list person) (fmt : string) (w : World) (R : person) (e : string) :
  R ∈ roster → named R → R !! "email" = Some e → e ≠ "" →
  (lays_out engine → Forall complete roster →
     ∃ dot w', create_org_chart engine roster fmt w = (Ok dot, w')) ∧
  (∀ dot w', create_org_chart engine roster fmt w = (Ok dot, w') →
     ∃ rid color,
       R !! "id" = Some rid ∧
       node_stmt rid
         ((label_lead R +:+ "<FONT POINT-SIZE='9'>Email: "
             +:+ PyStr.replace "@redcross.org" "" e +:+ "</FONT>") +:+ ">")
         [("fillcolor", color)] ∈ body dot) ∧
  (∀ loc, e = loc +:+ "@redcross.org" → PyStr.includes "@" loc = false →
     PyStr.replace "@redcross.org" "" e = loc).
Proof.
  intros HR Hn He Hne. split; [by apply complete_rendered|]. split.
  - intros dot w' Hrun.
    destruct (rendered_body engine roster fmt w dot w' Hrun) as (-> & Hren & _).
    assert (renderable R) as Hr by (rewrite Forall_forall in Hren; by apply Hren).
    destruct (node_in_graph_body roster R HR Hn Hr) as (rid & label & Hid & Hlab & Hin).
    rewrite (make_label_email R e Hn (proj1 (Hr Hn)) He Hne) in Hlab.
    injection Hlab as <-. by eexists rid, _.
  - intros loc -> Hloc. by apply replace_strips_domain.
Qed.

Lemma C9_label_email_without_domain_witness :
  ∃ dot w' color,
    create_org_chart blank_engine sample_roster "pdf" empty_world = (Ok dot, w') ∧
    node_stmt "cmd-dro"
      "<<B>DRO Director</B><BR/><B>Virginia Mewborn</B><BR/><FONT POINT-SIZE='9'>Phone: 917-670-8334</FONT><BR/><FONT POINT-SIZE='9'>Email: Virginia.Mewborn</FONT>>"
      [("fillcolor", color)] ∈ body dot.
Proof.
  destruct (C9_label_email_without_domain blank_engine sample_roster "pdf" empty_world
              {[ "id" := "cmd-dro"; "title" := "DRO Director"; "name" := "Virginia Mewborn";
                 "phone" := "917-670-8334"; "email" := "Virginia.Mewborn@redcross.org";
                 "category" := "Command" ]}
              "Virginia.Mewborn@redcross.org") as (Hrun & Hnode & _).
  - apply list_elem_of_here.
  - reflexivity.
  - reflexivity.
  - done.
  - destruct Hrun as (dot & w' & H).
    + intros dot fmt. by eexists.
    + by apply (bool_decide_unpack _); vm_compute.
    + destruct (Hnode dot w' H) as (rid & color & Hid & Hin).
      exists dot, w', color. split; [exact H|].
      injection Hid as <-. exact Hin.
Defined.

(** C10: the wrapper emitter does the same whatever [svg_file] is: it
    writes the one document to [org_chart.html] and prints the same two
    lines; the document refers to the vector artifact by the fixed name
    [org_chart.svg], in its [object] element and in the [img] inside. *)
Theorem C10_wrapper_ignores_svg_file (svg_file1 svg_file2 : string) (w : World) :
  Wrapper.create_html_wrapper svg_file1 w = Wrapper.create_html_wrapper svg_file2 w ∧
  files (snd (Wrapper.create_html_wrapper svg_file1 w)) !! "org_chart.html"
    = Some Wrapper.html_content ∧
  PyStr.includes Wrapper.object_reference Wrapper.html_content = true ∧
  PyStr.includes Wrapper.image_reference Wrapper.html_content = true.
Proof.
  split; [reflexivity|]. split; [|split; vm_compute; reflexivity].
  unfold Wrapper.create_html_wrapper, write_file, print, mbind, io_bind. simpl.
  apply lookup_insert_eq.
Qed.

(** * Further properties of the program *)

(** ** Lemmas on the edge loop and its errors *)



Lemma find_supervisor_raises (roster : list person) (person : person) target e :
  person !! "reportsTo" = Some target →
  find_supervisor roster person = Raise e → e = KeyError "id".
Proof.
  intros Ht. induction roster as [|p rest IH]; simpl; [done|].
  destruct (p !! "id") as [pid|] eqn:Hp.
  - rewrite (getitem_Some _ _ _ Hp), (getitem_Some _ _ _ Ht). cbn [mbind result_bind].
    destruct (String.eqb pid target); [done|apply IH].
  - rewrite (getitem_None _ _ Hp). cbn [mbind result_bind]. by intros [= <-].
Qed.

Lemma find_supervisor_idless (roster : list person) (person v : person) target :
  person !! "reportsTo" = Some target →
  v ∈ roster → v !! "id" = None →
  (∀ S : gmap string string, S ∈ roster → S !! "id" ≠ Some target) →
  find_supervisor roster person = Raise (KeyError "id").
Proof.
  intros Ht Hv Hid Hnone. induction roster as [|p rest IH]; [by apply elem_of_nil in Hv|].
  simpl. destruct (p !! "id") as [pid|] eqn:Hp.
  - rewrite (getitem_Some _ _ _ Hp), (getitem_Some _ _ _ Ht). cbn [mbind result_bind].
    destruct (String.eqb_spec pid target) as [->|Hne].
    + exfalso. apply (Hnone p); [apply list_elem_of_here|done].
    + apply IH.
      * apply elem_of_cons in Hv as [->|Hv]; [congruence|done].
      * intros S HS. apply Hnone. by apply list_elem_of_further.
  - by rewrite (getitem_None _ _ Hp).
Qed.

Lemma add_edge_raises (roster : list person) (p : person) dot e :
  add_edge roster p dot = Raise e → e = KeyError "id".
Proof.
  unfold add_edge. destruct (get_truthy p "name"); simpl; [|done].
  destruct (get_truthy p "reportsTo") eqn:Hrt; simpl; [|done].
  destruct (get_truthy_Some _ _ Hrt) as (target & Ht & _).
  destruct (find_supervisor roster p) as [found|e'] eqn:Hf.
  - cbn [mbind result_bind]. destruct found as [sup|]; [|done].
    destruct (dict_truthy sup && get_truthy sup "name"); [|done].
    rewrite (getitem_Some _ _ _ Ht). cbn [mbind result_bind].
    destruct (p !! "id") as [rid|] eqn:Hid.
    + by rewrite (getitem_Some _ _ _ Hid).
    + rewrite (getitem_None _ _ Hid). by intros [= <-].
  - cbn [mbind result_bind]. intros [= <-].
    by apply (find_supervisor_raises roster p target).
Qed.

Lemma add_edges_raises (roster people : list person) (R : person) dot :
  R ∈ people →
  (∀ d, add_edge roster R d = Raise (KeyError "id")) →
  add_edges roster people dot = Raise (KeyError "id").
Proof.
  intros HR Hraise. revert dot.
  induction people as [|p rest IH]; intros dot; [by apply elem_of_nil in HR|].
  cbn [add_edges]. destruct (add_edge roster p dot) as [d|e] eqn:Hp.
  - cbn [mbind result_bind]. apply elem_of_cons in HR as [->|HR]; [|by apply IH].
    rewrite Hraise in Hp. done.
  - cbn [mbind result_bind]. by rewrite (add_edge_raises _ _ _ _ Hp).
Qed.


Lemma replace_absent (old new s : string) :
  PyStr.includes old s = false → PyStr.replace old new s = s.
Proof.
  destruct old as [|a old]; [by destruct s|].
  unfold PyStr.replace. induction s as [|c s IH]; [done|].
  cbn [PyStr.includes]. intros H. apply orb_false_iff in H as [Hp Hs].
  cbn [PyStr.replace_scan]. rewrite Hp. by rewrite (IH Hs).
Qed.

(** ** The graph *)





(** X3: the supervisor lookup goes through the roster in order.  It hands
    back the first record whose id is the one reported to, having passed
    only records with other ids; it hands back nothing when every record
    has another id; and it raises [KeyError] on [id] exactly when it meets
    a record without id before any record with the id looked for. *)
Theorem X3_supervisor_lookup (roster : list person) (person : person) (target : string) :
  person !! "reportsTo" = Some target →
  match find_supervisor roster person with
  | Ok (Some sup) =>
      ∃ pre post, roster = pre ++ sup :: post ∧ sup !! "id" = Some target ∧
        Forall (other_id target) pre
  | Ok None => Forall (other_id target) roster
  | Raise e =>
      e = KeyError "id" ∧
      ∃ pre v post, roster = pre ++ v :: post ∧ v !! "id" = None ∧
        Forall (other_id target) pre
  end.
Proof.
  intros Ht. induction roster as [|p rest IH]; [by constructor|].
  cbn [find_supervisor]. destruct (p !! "id") as [pid|] eqn:Hp.
  - rewrite (getitem_Some _ _ _ Hp), (getitem_Some _ _ _ Ht). cbn [mbind result_bind].
    destruct (String.eqb_spec pid target) as [->|Hne].
    + by exists [], rest.
    + assert (other_id target p) as Ho by by exists pid.
      destruct (find_supervisor rest person) as [[sup|]|e].
      * destruct IH as (pre & post & -> & Hs & Hpre).
        exists (p :: pre), post. split; [done|]. split; [done|by constructor].
      * by constructor.
      * destruct IH as (-> & pre & v & post & -> & Hv & Hpre).
        split; [done|]. exists (p :: pre), v, post.
        split; [done|]. split; [done|by constructor].
  - rewrite (getitem_None _ _ Hp). cbn [mbind result_bind].
    split; [done|]. by exists [], p, rest.
Qed.

Lemma X3_supervisor_lookup_witness :
  Forall (other_id "ghost") dangling_roster.
Proof.
  exact (X3_supervisor_lookup dangling_roster
           {[ "id" := "b"; "title" := "Aide"; "name" := "Bob"; "reportsTo" := "ghost" ]}
           "ghost" eq_refl).
Defined.

(** X4: when some record of the roster has no id, a named record that
    reports to an id no record has makes the renderer raise [KeyError] on
    [id]: the lookup runs through the whole roster and meets the record
    without id.  Nothing is laid out, written or printed.  (The nodes were
    all made: the record without id is a vacant position.) *)
Theorem X4_dangling_reference_meets_idless (engine : Digraph -> string -> option string)
    (roster : list person) (fmt : string) (w : World) (v R : person) (P : string) :
  Forall renderable roster →
  v ∈ roster → v !! "id" = None →
  R ∈ roster → named R → R !! "reportsTo" = Some P → P ≠ "" →
  (∀ S : person, S ∈ roster → S !! "id" ≠ Some P) →
  create_org_chart engine roster fmt w = (Raise (KeyError "id"), w).
Proof.
  intros Hren Hv Hvid HR Hn HP Hne Hnone.
  apply create_org_chart_raise. unfold build_graph.
  rewrite (add_nodes_renderable _ _ Hren). cbn [mbind result_bind].
  rewrite (add_edges_raises roster roster R _ HR); [done|].
  intros d. unfold add_edge. unfold named in Hn.
  rewrite Hn, (get_truthy_true _ _ _ HP Hne). simpl.
  by rewrite (find_supervisor_idless roster R v P HP Hv Hvid Hnone).
Qed.

Lemma X4_dangling_reference_meets_idless_witness :
  create_org_chart blank_engine idless_roster "pdf" empty_world
    = (Raise (KeyError "id"), empty_world).
Proof.
  apply (X4_dangling_reference_meets_idless blank_engine idless_roster "pdf" empty_world
           {[ "title" := "Open desk" ]}
           {[ "id" := "b"; "title" := "Aide"; "name" := "Bob"; "reportsTo" := "ghost" ]}
           "ghost").
  - by apply (bool_decide_unpack _); vm_compute.
  - apply list_elem_of_here.
  - reflexivity.
  - apply list_elem_of_further, list_elem_of_here.
  - reflexivity.
  - reflexivity.
  - done.
  - apply Forall_forall. by apply (bool_decide_unpack _); vm_compute.
Defined.

(** X5: an address that does not hold [@redcross.org] is shown whole: in
    every chart that is rendered, the email line of the node of a named
    record with such an address is [Email: ] followed by the address as
    stored. *)
Theorem X5_other_domain_shown_whole (engine : Digraph -> string -> option string)
    (roster : list person) (fmt : string) (w : World) (dot : Digraph) (w' : World)
    (R : person) (e : string) :
  create_org_chart engine roster fmt w = (Ok dot, w') →
  R ∈ roster → named R → R !! "email" = Some e → e ≠ "" →
  PyStr.includes "@redcross.org" e = false →
  ∃ rid color,
    R !! "id" = Some rid ∧
    node_stmt rid
      ((label_lead R +:+ "<FONT POINT-SIZE='9'>Email: " +:+ e +:+ "</FONT>") +:+ ">")
      [("fillcolor", color)] ∈ body dot.
Proof.
  intros Hrun HR Hn He Hne Habs.
  destruct (rendered_body engine roster fmt w dot w' Hrun) as (-> & Hren & _).
  assert (renderable R) as Hr by (rewrite Forall_forall in Hren; by apply Hren).
  destruct (node_in_graph_body roster R HR Hn Hr) as (rid & label & Hid & Hlab & Hin).
  rewrite (make_label_email R e Hn (proj1 (Hr Hn)) He Hne) in Hlab.
  rewrite (replace_absent _ _ _ Habs) in Hlab.
  injection Hlab as <-. by eexists rid, _.
Qed.

Lemma X5_other_domain_shown_whole_witness :
  ∃ dot w' rid color,
    create_org_chart blank_engine guest_roster "pdf" empty_world = (Ok dot, w') ∧
    ({[ "id" := "v"; "title" := "Volunteer"; "name" := "Cy";
        "email" := "cy@example.org" ]} : person) !! "id" = Some rid ∧
    node_stmt rid
      ((label_lead {[ "id" := "v"; "title" := "Volunteer"; "name" := "Cy";
                      "email" := "cy@example.org" ]}
          +:+ "<FONT POINT-SIZE='9'>Email: " +:+ "cy@example.org" +:+ "</FONT>") +:+ ">")
      [("fillcolor", color)] ∈ body dot.
Proof.
  destruct (create_org_chart blank_engine guest_roster "pdf" empty_world)
    as [[dot|e] w'] eqn:Hrun; [|by vm_compute in Hrun].
  destruct (X5_other_domain_shown_whole blank_engine guest_roster "pdf" empty_world dot w'
              {[ "id" := "v"; "title" := "Volunteer"; "name" := "Cy";
                 "email" := "cy@example.org" ]}
              "cy@example.org") as (rid & color & Hid & Hin).
  - exact Hrun.
  - apply list_elem_of_here.
  - reflexivity.
  - reflexivity.
  - done.
  - reflexivity.
  - exists dot, w', rid, color. split; [reflexivity|]. split; [exact Hid|exact Hin].
Defined.

(** X11: a roster that has only vacant positions is rendered into a chart
    without nodes and without edges, whatever fields its records lack: no
    field of a vacant record is read but its name. *)
Theorem X11_vacant_roster_empty_chart (engine : Digraph -> string -> option string)
    (roster : list person) (fmt : string) (w : World) :
  lays_out engine → Forall (λ p : person, ¬ named p) roster →
  ∃ dot w',
    create_org_chart engine roster fmt w = (Ok dot, w') ∧
    node_names (body dot) = [] ∧ edges_of (body dot) = [].
Proof.
  intros Hl Hv.
  assert (Forall renderable roster) as Hren.
  { eapply Forall_impl; [exact Hv|]. intros p Hp Hn. done. }
  assert (∀ people d, Forall (λ p : person, ¬ named p) people →
            add_edges roster people d = Ok d) as Hedges.
  { intros people d H. induction H as [|p rest Hp _ IH]; [done|].
    cbn [add_edges]. unfold add_edge. unfold named in Hp.
    destruct (get_truthy p "name"); [done|]. simpl. exact IH. }
  assert (∃ d, build_graph roster = Ok d) as [d Hb].
  { unfold build_graph. rewrite (add_nodes_renderable _ _ Hren).
    cbn [mbind result_bind]. rewrite (Hedges _ _ Hv). by eexists. }
  destruct (create_org_chart_ok engine roster fmt w d Hl Hb) as [w' Hrun].
  exists (set_format d "svg"), w'. split; [done|].
  destruct (build_graph_Ok roster d Hb) as (-> & _ & _). cbn [set_format body].
  assert (filter named roster = []) as Hnone.
  { clear -Hv. induction Hv as [|p rest Hp _ IH]; [done|].
    by rewrite (filter_cons_False _ _ _ Hp). }
  split.
  - pose proof (node_names_graph_body roster Hren) as H. rewrite Hnone in H.
    by destruct (node_names (graph_body roster)).
  - destruct (edges_of (graph_body roster)) as [|[t h] l] eqn:He; [done|].
    assert ((t, h) ∈ edges_of (graph_body roster)) as Hin
      by (rewrite He; apply list_elem_of_here).
    apply edges_graph_body in Hin as (p & Hp & Hn & _).
    rewrite Forall_forall in Hv. by destruct (Hv p Hp).
Qed.

Lemma X11_vacant_roster_empty_chart_witness :
  ∃ dot w',
    create_org_chart blank_engine vacant_roster "pdf" empty_world = (Ok dot, w') ∧
    node_names (body dot) = [] ∧ edges_of (body dot) = [].
Proof.
  apply (X11_vacant_roster_empty_chart blank_engine vacant_roster "pdf" empty_world).
  - intros dot fmt. by eexists.
  - by apply (bool_decide_unpack _); vm_compute.
Defined.

(** ** The program from end to end *)

Lemma load_roster_run (json_loads : string -> result (list person)) (w : World) :
  load_roster_from_localstorage json_loads w =
    (match files w !! "roster.json" with
     | Some content => json_loads content
     | None => Ok sample_roster
     end, w).
Proof.
  unfold load_roster_from_localstorage, path_exists, json_load_file, mbind, io_bind.
  destruct (files w !! "roster.json") as [content|] eqn:Hf.
  - rewrite bool_decide_eq_true_2 by by eexists. rewrite Hf.
    by destruct (json_loads content).
  - by rewrite bool_decide_eq_false_2 by by intros [? ?].
Qed.

Lemma create_org_chart_run (engine : Digraph -> string -> option string)
    (roster : list person) (fmt : string) (w : World) (d : Digraph) (a1 a2 : string) :
  build_graph roster = Ok d →
  engine d fmt = Some a1 → engine (set_format d "svg") "svg" = Some a2 →
  create_org_chart engine roster fmt w =
    (Ok (set_format d "svg"),
     mkWorld (delete "org_chart"
                (<["org_chart.svg" := a2]>
                   (delete "org_chart" (<["org_chart" +:+ "." +:+ fmt := a1]> (files w)))))
             ((stdout w ++ ["✅ Org chart generated: " +:+ "org_chart" +:+ "." +:+ fmt])
                ++ ["✅ Web version generated: " +:+ "org_chart" +:+ ".svg"])).
Proof.
  intros Hb H1 H2. unfold create_org_chart, lift, mbind, io_bind, render, print.
  rewrite Hb. simpl. rewrite H1. simpl. rewrite H2. reflexivity.
Qed.

Lemma create_org_chart_Ok (engine : Digraph -> string -> option string)
    (roster : list person) (fmt : string) (w : World) (dot : Digraph) (w' : World) :
  create_org_chart engine roster fmt w = (Ok dot, w') →
  ∃ d a1 a2, build_graph roster = Ok d ∧ engine d fmt = Some a1 ∧
    engine (set_format d "svg") "svg" = Some a2 ∧ dot = set_format d "svg".
Proof.
  intros H. pose proof (create_org_chart_fst engine roster fmt w) as Hf.
  rewrite H in Hf. cbn [fst] in Hf.
  destruct (build_graph roster) as [d|e]; [|done]. cbn [mbind result_bind] in Hf.
  destruct (engine d fmt) as [a1|] eqn:H1; [|done].
  cbn [from_option mbind result_bind] in Hf.
  destruct (engine (set_format d "svg") "svg") as [a2|] eqn:H2; [|done].
  cbn [from_option mbind result_bind] in Hf. injection Hf as Hd. subst dot.
  by exists d, a1, a2.
Qed.

(** X7: when the roster file is there and cannot be read as a roster, the
    program ends with the reader's exception right after its two banner
    lines: the built-in roster is not used instead, and no file is written
    or removed. *)
Theorem X7_unreadable_roster_aborts (json_loads : string -> result (list person))
    (engine : Digraph -> string -> option string)
    (w : World) (content : string) (e : exn) :
  files w !! "roster.json" = Some content → json_loads content = Raise e →
  ∃ w', main json_loads engine w = (Raise e, w') ∧
    files w' = files w ∧
    stdout w' = stdout w ++ ["🚀 Red Cross Org Chart Generator";
                             "----------------------------------------"].
Proof.
  intros Hfile Hparse. eexists. split.
  - unfold main.
    unfold mbind at 1, io_bind at 1, print at 1.
    unfold mbind at 1, io_bind at 1, print at 1.
    unfold mbind at 1, io_bind at 1.
    rewrite load_roster_run. cbn [files]. rewrite Hfile, Hparse. reflexivity.
  - split; [reflexivity|]. cbn [stdout]. by rewrite <- app_assoc.
Qed.

Lemma X7_unreadable_roster_aborts_witness :
  ∃ w', main failing_reader blank_engine roster_world = (Raise JSONDecodeError, w') ∧
    files w' = files roster_world ∧
    stdout w' = stdout roster_world ++ ["🚀 Red Cross Org Chart Generator";
                                        "----------------------------------------"].
Proof.
  apply (X7_unreadable_roster_aborts failing_reader blank_engine roster_world "[...]").
  - reflexivity.
  - reflexivity.
Defined.





(** X10: when the program ends without an exception, the two counts it
    printed after the banner are those of the roster it loaded and of the
    chart it rendered: the number of records, and the number of nodes of
    the chart as the number of positions filled. *)
Theorem X10_printed_counts (json_loads : string -> result (list person))
    (engine : Digraph -> string -> option string) (w w' : World) :
  main json_loads engine w = (Ok tt, w') →
  ∃ roster dot,
    fst (load_roster_from_localstorage json_loads w) = Ok roster ∧
    fst (create_org_chart engine roster "pdf" w) = Ok dot ∧
    stdout w' !! (length (stdout w) + 2)
      = Some ("📊 Loaded " +:+ pretty (length roster) +:+ " positions") ∧
    stdout w' !! (length (stdout w) + 3)
      = Some ("👥 " +:+ pretty (length (node_names (body dot))) +:+ " positions filled").
Proof.
  intros H. unfold main in H.
  unfold mbind at 1, io_bind at 1, print at 1 in H.
  unfold mbind at 1, io_bind at 1, print at 1 in H.
  unfold mbind at 1, io_bind at 1 in H.
  rewrite load_roster_run in H. cbn [files] in H.
  rewrite load_roster_run. cbn [fst].
  destruct (match files w !! "roster.json" with
            | Some content => json_loads content
            | None => Ok sample_roster
            end) as [roster|e]; [|done].
  unfold mbind at 1, io_bind at 1, print at 1 in H.
  unfold mbind at 1, io_bind at 1, print at 1 in H.
  unfold mbind at 1, io_bind at 1, print at 1 in H.
  unfold mbind at 1, io_bind at 1 in H.
  destruct (create_org_chart engine roster "pdf" _) as [[dot|e] w4] eqn:Hrun; [|done].
  destruct (create_org_chart_Ok _ _ _ _ _ _ Hrun) as (d & a1 & a2 & Hb & H1 & H2 & ->).
  rewrite (create_org_chart_run engine roster "pdf" _ d a1 a2 Hb H1 H2) in Hrun.
  injection Hrun as <-.
  exists roster, (set_format d "svg"). split; [done|].
  split; [by rewrite (create_org_chart_run engine roster "pdf" _ d a1 a2 Hb H1 H2)|].
  injection H as <-. cbn [stdout files].
  destruct (build_graph_Ok roster d Hb) as (-> & Hren & _). cbn [set_format body].
  assert (length (node_names (graph_body roster))
          = length (filter (λ p : gmap string string, get_truthy p "name" = true) roster))
    as ->.
  { pose proof (f_equal length (node_names_graph_body roster Hren)) as Hlen.
    unfold roster_ids in Hlen. rewrite !length_fmap in Hlen. exact Hlen. }
  rewrite <- !app_assoc. simpl.
  split.
  - rewrite lookup_app_r by lia.
    by replace (length (stdout w) + 2 - length (stdout w)) with 2 by lia.
  - rewrite lookup_app_r by lia.
    by replace (length (stdout w) + 3 - length (stdout w)) with 3 by lia.
Qed.

Lemma X10_printed_counts_witness :
  ∃ w' roster dot,
    main fixed_reader blank_engine empty_world = (Ok tt, w') ∧
    fst (load_roster_from_localstorage fixed_reader empty_world) = Ok roster ∧
    fst (create_org_chart blank_engine roster "pdf" empty_world) = Ok dot ∧
    stdout w' !! (length (stdout empty_world) + 2)
      = Some ("📊 Loaded " +:+ pretty (length roster) +:+ " positions") ∧
    stdout w' !! (length (stdout empty_world) + 3)
      = Some ("👥 " +:+ pretty (length (node_names (body dot))) +:+ " positions filled").
Proof.
  destruct (main fixed_reader blank_engine empty_world) as [[[]|e] w'] eqn:Hmain;
    [|by vm_compute in Hmain].
  destruct (X10_printed_counts fixed_reader blank_engine empty_world w' Hmain)
    as (roster & dot & H).
  by exists w', roster, dot.
Defined.

(** X6: the chart handed back does not depend on the format asked for: two
    runs on the same roster that both end without an exception, in any
    formats and any worlds, hand back the same graph description, and its
    own format is [svg] whatever was asked for. *)
Theorem X6_chart_independent_of_format (engine : Digraph -> string -> option string)
    (roster : list person) (fmt1 fmt2 : string) (w1 w2 : World)
    (dot1 dot2 : Digraph) (w1' w2' : World) :
  create_org_chart engine roster fmt1 w1 = (Ok dot1, w1') →
  create_org_chart engine roster fmt2 w2 = (Ok dot2, w2') →
  dot1 = dot2 ∧ format dot1 = "svg".
Proof.
  intros H1 H2.
  destruct (create_org_chart_Ok _ _ _ _ _ _ H1) as (d1 & _ & _ & Hb1 & _ & _ & ->).
  destruct (create_org_chart_Ok _ _ _ _ _ _ H2) as (d2 & _ & _ & Hb2 & _ & _ & ->).
  rewrite Hb1 in Hb2. injection Hb2 as ->. done.
Qed.

Lemma X6_chart_independent_of_format_witness :
  ∃ dot1 dot2 w1' w2',
    create_org_chart blank_engine sample_roster "pdf" empty_world = (Ok dot1, w1') ∧
    create_org_chart blank_engine sample_roster "png" roster_world = (Ok dot2, w2') ∧
    dot1 = dot2 ∧ format dot1 = "svg".
Proof.
  destruct (create_org_chart blank_engine sample_roster "pdf" empty_world)
    as [[dot1|e] w1'] eqn:H1; [|by vm_compute in H1].
  destruct (create_org_chart blank_engine sample_roster "png" roster_world)
    as [[dot2|e] w2'] eqn:H2; [|by vm_compute in H2].
  exists dot1, dot2, w1', w2'. split; [done|]. split; [done|].
  exact (X6_chart_independent_of_format blank_engine sample_roster "pdf" "png"
           empty_world roster_world dot1 dot2 w1' w2' H1 H2).
Defined.

Lemma add_nodes_app (l1 l2 : list person) dot :
  add_nodes (l1 ++ l2) dot = (d ← add_nodes l1 dot; add_nodes l2 d).
Proof.
  revert dot. induction l1 as [|p l1 IH]; intros dot; [done|].
  cbn [app add_nodes]. destruct (add_node p dot) as [d|e]; [|done].
  cbn [mbind result_bind]. apply IH.
Qed.

(** X12: the exception of the node loop is decided by the first named
    record, in roster order, that lacks its title or its id: [KeyError] on
    [title] when the title is missing (also when the id is missing too),
    [KeyError] on [id] when only the id is missing.  Records after it are
    not looked at, and nothing is laid out, written or printed. *)
Theorem X12_first_incomplete_record_decides
    (engine : Digraph -> string -> option string)
    (pre post : list person) (p : person) (fmt : string) (w : World) :
  Forall renderable pre → named p →
  (p !! "title" = None →
     create_org_chart engine (pre ++ p :: post) fmt w = (Raise (KeyError "title"), w)) ∧
  (is_Some (p !! "title") → p !! "id" = None →
     create_org_chart engine (pre ++ p :: post) fmt w = (Raise (KeyError "id"), w)).
Proof.
  intros Hpre Hn.
  assert (∀ key dot, (∀ d, add_node p d = Raise (KeyError key)) →
            add_nodes (pre ++ p :: post) dot = Raise (KeyError key)) as Hloop.
  { intros key dot Hp. rewrite add_nodes_app, (add_nodes_renderable _ _ Hpre).
    cbn [mbind result_bind add_nodes]. by rewrite Hp. }
  split.
  - intros Ht. apply create_org_chart_raise. unfold build_graph.
    rewrite (Hloop "title"); [done|]. intros d. unfold add_node, make_label.
    unfold named in Hn. by rewrite Hn, (getitem_None _ _ Ht).
  - intros Ht Hid. apply create_org_chart_raise. unfold build_graph.
    rewrite (Hloop "id"); [done|]. intros d. unfold add_node.
    destruct (make_label_titled p Hn Ht) as [label Hl].
    unfold named in Hn. rewrite Hn, Hl, pick_color_total. cbn [mbind result_bind].
    by rewrite (getitem_None _ _ Hid).
Qed.

Lemma X12_first_incomplete_record_decides_witness :
  create_org_chart blank_engine
    ([ {[ "id" := "a"; "title" := "Lead"; "name" := "Ann" ]} ]
       ++ {[ "name" := "Bob" ]} :: [ {[ "title" := "Aide"; "name" := "Cy" ]} ])
    "pdf" empty_world = (Raise (KeyError "title"), empty_world).
Proof.
  apply (X12_first_incomplete_record_decides blank_engine
           [ {[ "id" := "a"; "title" := "Lead"; "name" := "Ann" ]} ]
           [ {[ "title" := "Aide"; "name" := "Cy" ]} ]
           {[ "name" := "Bob" ]} "pdf" empty_world).
  - by apply (bool_decide_unpack _); vm_compute.
  - reflexivity.
  - reflexivity.
Defined.
